(** * obs-text (GDI+): the text source of plugins/obs-text/gdiplus/obs-text.cpp

    A shallow embedding of the text source: colour helpers, the settings
    update, the layout calculator [CalculateTextSizes], the texture
    synchronisation at the end of [RenderText] and the per-frame [Render].

    Machine integers are [Z] with the wrap-around written out; the 32-bit
    [float] of the source is [spec_float] at precision 24 and emax 128;
    settings ([obs_data_t]) are a finite map from keys to values. *)

From Stdlib Require Import ZArith Zquot Lia List Bool.
From Stdlib Require Import Floats.SpecFloat.
From stdpp Require Import gmap strings.
Import ListNotations.
Local Open Scope Z_scope.

(* ------------------------------------------------------------------------- *)
(** ** Machine integers *)

Module Int.

(** [(uint32_t)z], also [DWORD]: the value modulo 2^32. *)
Definition to_uint32 (z : Z) : Z := z mod 2 ^ 32.

(** [(LONG)z], also [int]: the two's complement reading of the low 32 bits.
    Signed overflow, undefined in C++, wraps here as it does on the target. *)
Definition to_LONG (z : Z) : Z := (z + 2 ^ 31) mod 2 ^ 32 - 2 ^ 31.

Definition is_uint32 (z : Z) : Prop := 0 <= z < 2 ^ 32.
Definition is_LONG (z : Z) : Prop := - 2 ^ 31 <= z < 2 ^ 31.

End Int.
Import Int.

(* ------------------------------------------------------------------------- *)
(** ** Colour helpers (obs-text.cpp, lines 85-110) *)

(** [get_alpha_val]: [((opacity * 255 / 100) & 0xFF) << 24] on [uint32_t]. *)
Definition get_alpha_val (opacity : Z) : Z :=
  to_uint32 (Z.shiftl (Z.land (to_uint32 (opacity * 255) / 100) 0xFF) 24).

(** [calc_color]: [color & 0xFFFFFF | get_alpha_val(opacity)]; [&] binds
    tighter than [|]. *)
Definition calc_color (color opacity : Z) : Z :=
  Z.lor (Z.land color 0xFFFFFF) (get_alpha_val opacity).

(** [rgb_to_bgr]:
    [((rgb & 0xFF) << 16) | (rgb & 0xFF00) | ((rgb & 0xFF0000) >> 16)]. *)
Definition rgb_to_bgr (rgb : Z) : Z :=
  Z.lor (Z.lor (to_uint32 (Z.shiftl (Z.land rgb 0xFF) 16))
               (Z.land rgb 0xFF00))
        (Z.shiftr (Z.land rgb 0xFF0000) 16).

(** The three bytes of a 24-bit colour, written [0xRRGGBB]. *)
Definition rgb24 (r g b : Z) : Z := r * 65536 + g * 256 + b.

(** Rounding to the nearest integer of the quotient [a / b], halves up:
    the reading of "round" that the alpha-byte sentence of the
    specification uses. *)
Definition round_div (a b : Z) : Z := (2 * a + b) / (2 * b).

(* ------------------------------------------------------------------------- *)
(** ** The 32-bit [float] *)

Module F32.

Definition float : Type := spec_float.

Definition prec : Z := 24.
Definition emax : Z := 128.

Definition zero : float := S754_zero false.

Definition add : float -> float -> float := SFadd prec emax.
Definition sub : float -> float -> float := SFsub prec emax.
Definition div : float -> float -> float := SFdiv prec emax.
Definition ltb : float -> float -> bool := SFltb.

(** [float(z)] for an integer [z]: round to nearest, ties to even. *)
Definition of_Z (z : Z) : float := binary_normalize prec emax z 0 false.

(** The integer part of a finite float, rounding towards zero. *)
Definition trunc (x : float) : option Z :=
  match x with
  | S754_zero _ => Some 0
  | S754_finite s m e =>
      Some (cond_Zopp s
              (match e with
               | Zneg p => Z.pos m / 2 ^ Z.pos p
               | _ => Z.pos m * 2 ^ e
               end))
  | S754_infinity _ | S754_nan => None
  end.

(** [LONG(x)]. A value that has no 32-bit integer part (out of range,
    infinite or NaN) is undefined in C++; the conversion instruction of the
    target yields the "integer indefinite" 0x80000000, which is what the
    model returns. *)
Definition to_LONG (x : float) : Z :=
  match trunc x with
  | Some z => if (- 2 ^ 31 <=? z) && (z <? 2 ^ 31) then z else - 2 ^ 31
  | None => - 2 ^ 31
  end.

(** [roundf]: nearest integer, halves away from zero. *)
Definition roundf (x : float) : float :=
  match x with
  | S754_finite s m (Zneg p) =>
      let q := (2 * Z.pos m + 2 ^ Z.pos p) / (2 * 2 ^ Z.pos p) in
      binary_normalize prec emax (cond_Zopp s q) 0 s
  | _ => x
  end.

End F32.

(* ------------------------------------------------------------------------- *)
(** ** Strings *)

(** [wchar_t] code units and [std::wstring]. *)
Definition wchar_t : Type := Z.
Definition wstring : Type := list wchar_t.

Definition push_back (s : wstring) (c : wchar_t) : wstring := s ++ [c].
Definition pop_back (s : wstring) : wstring := removelast s.

(** [s.empty()]. *)
Definition wstring_empty (s : wstring) : bool :=
  match s with [] => true | _ :: _ => false end.

(** [L'\n']. *)
Definition newline : wchar_t := 10.

(** [strcmp] on NUL-free strings: negative, zero or positive. *)
Definition strcmp (a b : string) : Z :=
  match String.compare a b with
  | Eq => 0
  | Lt => -1
  | Gt => 1
  end.

(** The content "ends with a single trailing newline" and the content with
    that newline removed, as the trailing-newline sentence of the
    specification reads. *)
Definition ends_with_newline (s : wstring) : Prop :=
  exists body, s = body ++ [newline].

Fixpoint strip_trailing_newline (s : wstring) : wstring :=
  match s with
  | [] => []
  | [c] => if c =? newline then [] else [c]
  | c :: rest => c :: strip_trailing_newline rest
  end.

(* ------------------------------------------------------------------------- *)
(** ** Settings keys (lines 26-46) *)

Definition S_FONT : string := "font".
Definition S_USE_FILE : string := "read_from_file".
Definition S_FILE : string := "file".
Definition S_TEXT : string := "text".
Definition S_COLOR : string := "color".
Definition S_ALIGN : string := "align".
Definition S_VALIGN : string := "valign".
Definition S_OPACITY : string := "opacity".
Definition S_VERTICAL : string := "vertical".
Definition S_OUTLINE : string := "outline".
Definition S_OUTLINE_SIZE : string := "outline_size".
Definition S_OUTLINE_COLOR : string := "outline_color".
Definition S_OUTLINE_OPACITY : string := "outline_opacity".

Definition S_ALIGN_LEFT : string := "left".
Definition S_ALIGN_CENTER : string := "center".
Definition S_ALIGN_RIGHT : string := "right".

Definition S_VALIGN_TOP : string := "top".
Definition S_VALIGN_CENTER : string := S_ALIGN_CENTER.
Definition S_VALIGN_BOTTOM : string := "bottom".

Definition MIN_SIZE_CX : Z := 32.
Definition MIN_SIZE_CY : Z := 32.
Definition MAX_SIZE_CX : Z := 8192.
Definition MAX_SIZE_CY : Z := 8192.

(** The [clamp] macro (lines 74-78):
    [if (val < min_val) val = min_val; else if (val > max_val) val = max_val;] *)
Definition clamp (val min_val max_val : Z) : Z :=
  if val <? min_val then min_val
  else if val >? max_val then max_val
  else val.

(* ------------------------------------------------------------------------- *)
(** ** Settings records: [obs_data_t] *)

(** Modelled from the spec: the configuration source, which is outside the
    file. It "supplies a structured settings record" with string keys for
    strings, integers, booleans and the nested font record, and the engine
    "must not assume validation beyond type": a getter on a missing record
    or key, or on a value of another type, yields the zero of its type. *)
#[warnings="-register-all"]
Inductive obs_value : Type :=
  | OString (s : string)
  | OInt (z : Z)
  | OBool (b : bool)
  | OObj (o : gmap string obs_value).

(** [obs_data_t *]: [None] is the null pointer. *)
Definition obs_data_ptr : Type := option (gmap string obs_value).

Definition obs_data_item (d : obs_data_ptr) (name : string) : option obs_value :=
  match d with
  | Some m => m !! name
  | None => None
  end.

Definition obs_data_get_string (d : obs_data_ptr) (name : string) : string :=
  match obs_data_item d name with
  | Some (OString s) => s
  | _ => ""
  end.

(** The result is a [long long]. *)
Definition obs_data_get_int (d : obs_data_ptr) (name : string) : Z :=
  match obs_data_item d name with
  | Some (OInt z) => z
  | _ => 0
  end.

Definition obs_data_get_bool (d : obs_data_ptr) (name : string) : bool :=
  match obs_data_item d name with
  | Some (OBool b) => b
  | _ => false
  end.

Definition obs_data_get_obj (d : obs_data_ptr) (name : string) : obs_data_ptr :=
  match obs_data_item d name with
  | Some (OObj o) => Some o
  | _ => None
  end.

(** [#define obs_data_get_uint32 (uint32_t)obs_data_get_int] (line 482). *)
Definition obs_data_get_uint32 (d : obs_data_ptr) (name : string) : Z :=
  to_uint32 (obs_data_get_int d name).

(* ------------------------------------------------------------------------- *)
(** ** Rasterization backend and host types *)

Module Align.
Inductive t : Set := Left | Center | Right.
End Align.

Module VAlign.
Inductive t : Set := Top | Center | Bottom.
End VAlign.

Module RectF.
Record t : Type := mk { X : F32.float; Y : F32.float;
                        Width : F32.float; Height : F32.float }.

(** The default constructor: all four fields are [0.0f]. *)
Definition zero : t := mk F32.zero F32.zero F32.zero F32.zero.

(** [Offset(dx, dy)]. *)
Definition Offset (r : t) (dx dy : F32.float) : t :=
  mk (F32.add (X r) dx) (F32.add (Y r) dy) (Width r) (Height r).
End RectF.

Module SIZE.
(** Both fields are [LONG]. *)
Record t : Type := mk { cx : Z; cy : Z }.
End SIZE.

Inductive StringAlignment : Set :=
  | StringAlignmentNear
  | StringAlignmentCenter
  | StringAlignmentFar.

Inductive StringTrimming : Set :=
  | StringTrimmingNone
  | StringTrimmingWord.

(** Constants of the GDI+ and GDI headers. *)
Definition StringFormatFlagsDirectionRightToLeft : Z := 0x1.
Definition StringFormatFlagsDirectionVertical : Z := 0x2.
Definition StringFormatFlagsNoFitBlackBox : Z := 0x4.
Definition StringFormatFlagsMeasureTrailingSpaces : Z := 0x800.
Definition StringFormatFlagsLineLimit : Z := 0x2000.
Definition StringFormatFlagsNoClip : Z := 0x4000.

Module StringFormat.
(** The four properties of a GDI+ [StringFormat] that the file sets. The
    object holds more (hot key prefix, tab stops, digit substitution), which
    the file neither reads nor sets and the record leaves out: nothing is
    stated here about that part of a format. *)
Record t : Type := mk {
  FormatFlags : Z;
  Trimming : StringTrimming;
  Alignment : StringAlignment;
  LineAlignment : StringAlignment
}.

Definition GenericTypographic : t :=
  mk (Z.lor (Z.lor StringFormatFlagsLineLimit StringFormatFlagsNoClip)
            StringFormatFlagsNoFitBlackBox)
     StringTrimmingNone StringAlignmentNear StringAlignmentNear.

Definition SetFormatFlags (f : t) (flags : Z) : t :=
  mk flags (Trimming f) (Alignment f) (LineAlignment f).
Definition SetTrimming (f : t) (tr : StringTrimming) : t :=
  mk (FormatFlags f) tr (Alignment f) (LineAlignment f).
Definition SetAlignment (f : t) (a : StringAlignment) : t :=
  mk (FormatFlags f) (Trimming f) a (LineAlignment f).
Definition SetLineAlignment (f : t) (a : StringAlignment) : t :=
  mk (FormatFlags f) (Trimming f) (Alignment f) a.
End StringFormat.

Definition FW_DONTCARE : Z := 0.
Definition FW_BOLD : Z := 700.
Definition ANTIALIASED_QUALITY : Z := 4.

Record LOGFONT : Type := {
  lfHeight : Z;
  lfWeight : Z;
  lfItalic : bool;
  lfUnderline : bool;
  lfStrikeOut : bool;
  lfQuality : Z;
  lfFaceName : wstring
}.

(** [wcscpy(lf.lfFaceName, name)], for a name that fits the 32 code units
    of [lfFaceName] with its terminator. The source copies a longer name
    past the end of the array, which this definition does not follow: for
    such a name the source's [Update] has no defined result, and the
    theorems on what [Update] leaves take its return as a hypothesis. *)
Definition wcscpy_face (lf : LOGFONT) (name : wstring) : LOGFONT :=
  {| lfHeight := lfHeight lf; lfWeight := lfWeight lf; lfItalic := lfItalic lf;
     lfUnderline := lfUnderline lf; lfStrikeOut := lfStrikeOut lf;
     lfQuality := lfQuality lf; lfFaceName := name |}.

(** A non-null [HFONT] and the [Font] built from it ([new Font(hdc, hfont)]). *)
Definition HFONT : Type := Z.
Record Font : Type := { font_handle : HFONT }.

(** A non-null [gs_texture_t *]. *)
Definition gs_texture : Type := Z.

(** Where [MeasureString] lays the text out: a box, or an origin. *)
Inductive Layout : Type :=
  | LayoutRect (layoutRect : RectF.t)
  | LayoutPoint (x y : F32.float).

(** What is drawn into the bitmap, in order. A colour is a 32-bit ARGB
    value. *)
Inductive draw_op : Type :=
  | Clear (argb : Z)
  | FillRectangle (argb : Z) (rect : RectF.t)
  | DrawString (str : wstring) (length : Z) (font : option Font)
      (layoutRect : RectF.t) (format : StringFormat.t) (brush : Z)
  | DrawPath (pen_argb : Z) (pen_width : F32.float) (str : wstring)
      (length : Z) (font : Font) (layoutRect : RectF.t)
      (format : StringFormat.t)
  | FillPath (brush : Z) (str : wstring) (length : Z) (font : Font)
      (layoutRect : RectF.t) (format : StringFormat.t).

(** The pixel buffer behind [bits]: its stride and what was drawn into it. *)
Record Bitmap : Type := {
  bitmap_width : Z;
  bitmap_height : Z;
  bitmap_stride : Z;
  bitmap_ops : list draw_op
}.

(** Calls into the host graphics surface, in order. *)
Inductive gs_event : Type :=
  | obs_enter_graphics
  | obs_leave_graphics
  | gs_texture_destroy (tex : gs_texture)
  | gs_texture_create (width height : Z) (data : Bitmap)
      (result : option gs_texture)
  | gs_texture_set_image (tex : gs_texture) (data : Bitmap) (linesize : Z)
  | gs_reset_blend_state
  | gs_effect_set_texture (param : string) (tex : gs_texture)
  | gs_draw_sprite (tex : gs_texture) (flip : Z) (width height : Z).

(** What the file takes from outside: the platform library, GDI and GDI+
    calls whose results it uses, and the constants of headers that are not
    part of it. One record stands for the outside world at one call. *)
Record Platform : Type := {
  (** [os_utf8_to_wcs]: the wide string decoded from a UTF-8 string;
      nothing for the null pointer. *)
  os_utf8_to_wcs : option string -> wstring;
  (** [os_quick_read_utf8_file]: the file's text, or the null pointer. *)
  os_quick_read_utf8_file : string -> option string;
  (** [CreateFontIndirect]: a font handle, or null. *)
  CreateFontIndirect : LOGFONT -> option HFONT;
  (** [Graphics::MeasureString]: the bounding box it leaves. Its status is
      only logged. *)
  MeasureString : wstring -> Z -> option Font -> Layout -> StringFormat.t ->
                  RectF.t -> RectF.t;
  (** [gs_texture_create]: the new texture, or null. *)
  gs_texture_create_result : Z -> Z -> Bitmap -> option gs_texture;
  (** [EPSILON] of graphics/math-defs.h. *)
  EPSILON : F32.float;
  (** The font style bits of obs.h. *)
  OBS_FONT_BOLD : Z;
  OBS_FONT_ITALIC : Z;
  OBS_FONT_UNDERLINE : Z;
  OBS_FONT_STRIKEOUT : Z
}.

(** [to_wide] (lines 95-105): ask for the length, size the string, and
    decode into it when the length is not zero. *)
Definition to_wide (P : Platform) (utf8 : option string) : wstring :=
  let len := length (os_utf8_to_wcs P utf8) in
  match len with
  | O => []
  | S _ => firstn len (os_utf8_to_wcs P utf8)
  end.

(* ------------------------------------------------------------------------- *)
(** ** [struct TextSource] (lines 155-226) *)

Module TextSource.

(** The fields, without the host source pointer, the device context and the
    measuring [Graphics], which stand behind [Platform]. *)
Record t : Type := mk {
  text : wstring;
  tex : option gs_texture;
  cx : Z;
  cy : Z;
  hfont : option HFONT;
  font : option Font;
  read_from_file : bool;
  file : string;
  face : wstring;
  face_size : Z;
  color : Z;
  opacity : Z;
  bk_color : Z;
  bk_opacity : Z;
  align : Align.t;
  valign : VAlign.t;
  bold : bool;
  italic : bool;
  underline : bool;
  strikeout : bool;
  vertical : bool;
  use_outline : bool;
  outline_size : F32.float;
  outline_color : Z;
  outline_opacity : Z;
  use_extents : bool;
  wrap : bool;
  extents_cx : Z;
  extents_cy : Z
}.

(** The default member initialisers: the state the constructor starts from. *)
Definition init : t :=
  {| text := []; tex := None; cx := 0; cy := 0;
     hfont := None; font := None;
     read_from_file := false; file := "";
     face := []; face_size := 0;
     color := 0xFFFFFF; opacity := 100; bk_color := 0; bk_opacity := 0;
     align := Align.Left; valign := VAlign.Top;
     bold := false; italic := false; underline := false; strikeout := false;
     vertical := false;
     use_outline := false; outline_size := F32.zero;
     outline_color := 0; outline_opacity := 100;
     use_extents := false; wrap := false; extents_cx := 0; extents_cy := 0 |}.

Definition set_font (s : t) (h : option HFONT) (f : option Font) : t :=
  mk (text s) (tex s) (cx s) (cy s) h f (read_from_file s) (file s) (face s)
     (face_size s) (color s) (opacity s) (bk_color s) (bk_opacity s)
     (align s) (valign s) (bold s) (italic s) (underline s) (strikeout s)
     (vertical s) (use_outline s) (outline_size s) (outline_color s)
     (outline_opacity s) (use_extents s) (wrap s) (extents_cx s)
     (extents_cy s).

Definition set_text (s : t) (x : wstring) : t :=
  mk x (tex s) (cx s) (cy s) (hfont s) (font s) (read_from_file s) (file s)
     (face s) (face_size s) (color s) (opacity s) (bk_color s) (bk_opacity s)
     (align s) (valign s) (bold s) (italic s) (underline s) (strikeout s)
     (vertical s) (use_outline s) (outline_size s) (outline_color s)
     (outline_opacity s) (use_extents s) (wrap s) (extents_cx s)
     (extents_cy s).

Definition set_tex (s : t) (x : option gs_texture) : t :=
  mk (text s) x (cx s) (cy s) (hfont s) (font s) (read_from_file s) (file s)
     (face s) (face_size s) (color s) (opacity s) (bk_color s) (bk_opacity s)
     (align s) (valign s) (bold s) (italic s) (underline s) (strikeout s)
     (vertical s) (use_outline s) (outline_size s) (outline_color s)
     (outline_opacity s) (use_extents s) (wrap s) (extents_cx s)
     (extents_cy s).

Definition set_size (s : t) (w h : Z) : t :=
  mk (text s) (tex s) w h (hfont s) (font s) (read_from_file s) (file s)
     (face s) (face_size s) (color s) (opacity s) (bk_color s) (bk_opacity s)
     (align s) (valign s) (bold s) (italic s) (underline s) (strikeout s)
     (vertical s) (use_outline s) (outline_size s) (outline_color s)
     (outline_opacity s) (use_extents s) (wrap s) (extents_cx s)
     (extents_cy s).

(** [L"Arial"]. *)
Definition Arial : wstring := [65; 114; 105; 97; 108].

(** [UpdateFont] (lines 228-253). *)
Definition UpdateFont (P : Platform) (s : t) : t :=
  let lf := {| lfHeight := face_size s;
               lfWeight := if bold s then FW_BOLD else FW_DONTCARE;
               lfItalic := italic s;
               lfUnderline := underline s;
               lfStrikeOut := strikeout s;
               lfQuality := ANTIALIASED_QUALITY;
               lfFaceName := [] |} in
  let h1 := if negb (wstring_empty (face s))
            then CreateFontIndirect P (wcscpy_face lf (face s))
            else None in
  let h2 := match h1 with
            | Some h => Some h
            | None => CreateFontIndirect P (wcscpy_face lf Arial)
            end in
  match h2 with
  | Some h => set_font s (Some h) (Some {| font_handle := h |})
  | None => set_font s None None
  end.

(** [GetStringFormat] (lines 255-306). *)
Definition GetStringFormat (s : t) (format : StringFormat.t) : StringFormat.t :=
  let flags := Z.lor StringFormatFlagsNoFitBlackBox
                     StringFormatFlagsMeasureTrailingSpaces in
  let flags := if vertical s
               then Z.lor flags
                      (Z.lor StringFormatFlagsDirectionVertical
                             StringFormatFlagsDirectionRightToLeft)
               else flags in
  let format := StringFormat.SetFormatFlags format flags in
  let format := StringFormat.SetTrimming format StringTrimmingWord in
  let format :=
    match align s with
    | Align.Left =>
        if vertical s
        then StringFormat.SetLineAlignment format StringAlignmentFar
        else StringFormat.SetAlignment format StringAlignmentNear
    | Align.Center =>
        if vertical s
        then StringFormat.SetLineAlignment format StringAlignmentCenter
        else StringFormat.SetAlignment format StringAlignmentCenter
    | Align.Right =>
        if vertical s
        then StringFormat.SetLineAlignment format StringAlignmentNear
        else StringFormat.SetAlignment format StringAlignmentFar
    end in
  match valign s with
  | VAlign.Top =>
      if vertical s
      then StringFormat.SetAlignment format StringAlignmentNear
      else StringFormat.SetLineAlignment format StringAlignmentNear
  | VAlign.Center =>
      if vertical s
      then StringFormat.SetAlignment format StringAlignmentCenter
      else StringFormat.SetLineAlignment format StringAlignmentCenter
  | VAlign.Bottom =>
      if vertical s
      then StringFormat.SetAlignment format StringAlignmentFar
      else StringFormat.SetLineAlignment format StringAlignmentFar
  end.

(** [(int)text.size()]. *)
Definition text_size_int (str : wstring) : Z := to_LONG (Z.of_nat (length str)).

(** [CalculateTextSizes], first part (lines 314-345): the bounding box of
    the text. *)
Definition measure_text (P : Platform) (s : t) (format : StringFormat.t)
    (bounding_box : RectF.t) : RectF.t :=
  if negb (wstring_empty (text s)) then
    if use_extents s && wrap s then
      let layout_box :=
        RectF.mk F32.zero F32.zero
                 (F32.of_Z (extents_cx s)) (F32.of_Z (extents_cy s)) in
      let layout_box :=
        if use_outline s
        then RectF.mk (RectF.X layout_box) (RectF.Y layout_box)
               (F32.sub (RectF.Width layout_box) (outline_size s))
               (F32.sub (RectF.Height layout_box) (outline_size s))
        else layout_box in
      MeasureString P (text s) (to_LONG (text_size_int (text s) + 1)) (font s)
        (LayoutRect layout_box) format bounding_box
    else
      let bounding_box :=
        MeasureString P (text s) (to_LONG (text_size_int (text s) + 1))
          (font s) (LayoutPoint F32.zero F32.zero) format bounding_box in
      let bounding_box :=
        RectF.mk F32.zero F32.zero
                 (RectF.Width bounding_box) (RectF.Height bounding_box) in
      if use_outline s
      then RectF.mk (RectF.X bounding_box) (RectF.Y bounding_box)
             (F32.add (RectF.Width bounding_box) (outline_size s))
             (F32.add (RectF.Height bounding_box) (outline_size s))
      else bounding_box
  else bounding_box.

(** Second part (lines 347-365): the measured size, with the floor at the
    font size along the thickness axis. *)
Definition measured_size (P : Platform) (s : t) (bounding_box : RectF.t)
    : RectF.t * SIZE.t :=
  if vertical s then
    let '(w, cx') :=
      if F32.ltb (RectF.Width bounding_box) (F32.of_Z (face_size s))
      then (F32.of_Z (face_size s), face_size s)
      else (RectF.Width bounding_box,
            F32.to_LONG (F32.add (RectF.Width bounding_box) (EPSILON P))) in
    (RectF.mk (RectF.X bounding_box) (RectF.Y bounding_box) w
              (RectF.Height bounding_box),
     SIZE.mk cx'
       (F32.to_LONG (F32.add (RectF.Height bounding_box) (EPSILON P))))
  else
    let '(h, cy') :=
      if F32.ltb (RectF.Height bounding_box) (F32.of_Z (face_size s))
      then (F32.of_Z (face_size s), face_size s)
      else (RectF.Height bounding_box,
            F32.to_LONG (F32.add (RectF.Height bounding_box) (EPSILON P))) in
    (RectF.mk (RectF.X bounding_box) (RectF.Y bounding_box)
              (RectF.Width bounding_box) h,
     SIZE.mk (F32.to_LONG (F32.add (RectF.Width bounding_box) (EPSILON P)))
             cy').

(** Third part (lines 367-377): the requested extents. *)
Definition apply_extents (s : t) (text_size : SIZE.t) : SIZE.t :=
  if use_extents s then
    if wrap s then
      SIZE.mk (to_LONG (extents_cx s)) (to_LONG (extents_cy s))
    else
      if to_LONG (extents_cx s) >? SIZE.cx text_size
      then SIZE.mk (to_LONG (extents_cx s)) (SIZE.cy text_size)
      else if to_LONG (extents_cy s) >? SIZE.cy text_size
      then SIZE.mk (SIZE.cx text_size) (to_LONG (extents_cy s))
      else text_size
  else text_size.

(** [v += v % 2] on a [LONG]; [%] truncates towards zero. *)
Definition round_even (v : Z) : Z := to_LONG (v + Z.rem v 2).

(** Last part (lines 379-383): even dimensions, then the clamp. *)
Definition quantize (text_size : SIZE.t) : SIZE.t :=
  SIZE.mk (clamp (round_even (SIZE.cx text_size)) MIN_SIZE_CX MAX_SIZE_CX)
          (clamp (round_even (SIZE.cy text_size)) MIN_SIZE_CY MAX_SIZE_CY).

(** [CalculateTextSizes] (lines 308-384): the bounding box and the canvas
    size it leaves in its two out-parameters. *)
Definition CalculateTextSizes (P : Platform) (s : t) (format : StringFormat.t)
    (bounding_box : RectF.t) : RectF.t * SIZE.t :=
  let '(bounding_box, text_size) :=
    measured_size P s (measure_text P s format bounding_box) in
  (bounding_box, quantize (apply_extents s text_size)).

(** [RenderOutlineText] (lines 386-397): the path is stroked, then filled. *)
Definition RenderOutlineText (s : t) (str : wstring) (length : Z) (f : Font)
    (box : RectF.t) (format : StringFormat.t) (brush : Z) : list draw_op :=
  let outline_rgba := calc_color (outline_color s) (outline_opacity s) in
  [DrawPath outline_rgba (outline_size s) str length f box format;
   FillPath brush str length f box format].

(** [RenderText], the background (lines 415-431). *)
Definition background_ops (s : t) (box : RectF.t) (size : SIZE.t)
    : list draw_op :=
  let full_bk_color := Z.land (bk_color s) 0xFFFFFF in
  let full_bk_color :=
    if negb (wstring_empty (text s)) || use_extents s
    then Z.lor full_bk_color (get_alpha_val (bk_opacity s))
    else full_bk_color in
  if (F32.ltb (RectF.Width box) (F32.of_Z (SIZE.cx size))
      || F32.ltb (RectF.Height box) (F32.of_Z (SIZE.cy size)))
     && negb (use_extents s)
  then [Clear 0; FillRectangle full_bk_color box]
  else [Clear full_bk_color].

(** [RenderText], the glyphs (lines 437-459): the state with the text as the
    block leaves it, and what was drawn. Nothing is returned where the source
    goes through the null font pointer ([font->GetFamily]). *)
Definition glyph_ops (s : t) (box : RectF.t) (format : StringFormat.t)
    : option (t * list draw_op) :=
  let brush := Z.lor (get_alpha_val (opacity s)) (Z.land (color s) 0xFFFFFF) in
  if negb (wstring_empty (text s)) then
    let s1 := set_text s (push_back (text s) newline) in
    let ops :=
      if use_outline s1 then
        let box := RectF.Offset box
                     (F32.div (outline_size s1) (F32.of_Z 2))
                     (F32.div (outline_size s1) (F32.of_Z 2)) in
        match font s1 with
        | Some f =>
            Some (RenderOutlineText s1 (text s1) (text_size_int (text s1)) f
                    box format brush)
        | None => None
        end
      else
        Some [DrawString (text s1) (text_size_int (text s1)) (font s1) box
                format brush] in
    match ops with
    | Some l => Some (set_text s1 (pop_back (text s1)), l)
    | None => None
    end
  else Some (s, []).

(** [RenderText], the texture (lines 461-479). *)
Definition sync_texture (P : Platform) (s : t) (size : SIZE.t) (bits : Bitmap)
    : t * list gs_event :=
  if match tex s with None => true | Some _ => false end
     || negb (to_LONG (cx s) =? SIZE.cx size)
     || negb (to_LONG (cy s) =? SIZE.cy size)
  then
    let destroyed :=
      match tex s with
      | Some old => [gs_texture_destroy old]
      | None => []
      end in
    let w := to_uint32 (SIZE.cx size) in
    let h := to_uint32 (SIZE.cy size) in
    let created := gs_texture_create_result P w h bits in
    let s := set_tex s created in
    let s := set_size s (to_uint32 (SIZE.cx size)) (to_uint32 (SIZE.cy size)) in
    (s, [obs_enter_graphics] ++ destroyed
          ++ [gs_texture_create w h bits created; obs_leave_graphics])
  else
    match tex s with
    | Some cur =>
        (s, [obs_enter_graphics;
             gs_texture_set_image cur bits (to_uint32 (SIZE.cx size * 4));
             obs_leave_graphics])
    | None => (s, [])
    end.

(** [RenderText] (lines 399-480). *)
Definition RenderText (P : Platform) (s : t) : option (t * list gs_event) :=
  let format := GetStringFormat s StringFormat.GenericTypographic in
  let '(box, size) := CalculateTextSizes P s format RectF.zero in
  match glyph_ops s box format with
  | Some (s1, glyphs) =>
      let bits := {| bitmap_width := SIZE.cx size;
                     bitmap_height := SIZE.cy size;
                     bitmap_stride := to_LONG (4 * SIZE.cx size);
                     bitmap_ops := background_ops s box size ++ glyphs |} in
      Some (sync_texture P s1 size bits)
  | None => None
  end.

(** [Update], the settings (lines 486-554): every field the update assigns,
    before the font and the bitmap are rebuilt. *)
Definition apply_settings (P : Platform) (settings : gmap string obs_value)
    (s : t) : t :=
  let st := Some settings in
  let new_text := obs_data_get_string st S_TEXT in
  let font_obj := obs_data_get_obj st S_FONT in
  let align_str := obs_data_get_string st S_ALIGN in
  let valign_str := obs_data_get_string st S_VALIGN in
  let new_color := obs_data_get_uint32 st S_COLOR in
  let new_opacity := obs_data_get_uint32 st S_OPACITY in
  let new_vertical := obs_data_get_bool st S_VERTICAL in
  let new_outline := obs_data_get_bool st S_OUTLINE in
  let new_o_color := obs_data_get_uint32 st S_OUTLINE_COLOR in
  let new_o_opacity := obs_data_get_uint32 st S_OUTLINE_OPACITY in
  let new_o_size := obs_data_get_uint32 st S_OUTLINE_SIZE in
  let new_use_file := obs_data_get_bool st S_USE_FILE in
  let new_file := obs_data_get_string st S_FILE in
  let font_face := obs_data_get_string font_obj "face" in
  let font_size := obs_data_get_int font_obj "size" in
  let font_flags := obs_data_get_int font_obj "flags" in
  let new_face := to_wide P (Some font_face) in
  let new_color := rgb_to_bgr new_color in
  let new_o_color := rgb_to_bgr new_o_color in
  let new_file_field := if new_use_file then new_file else file s in
  let new_text_field :=
    if new_use_file
    then to_wide P (os_quick_read_utf8_file P new_file)
    else to_wide P (Some new_text) in
  let new_text_field :=
    if negb (wstring_empty new_text_field)
    then pop_back (push_back new_text_field newline)
    else new_text_field in
  let new_align :=
    if strcmp align_str S_ALIGN_CENTER =? 0 then Align.Center
    else if strcmp align_str S_ALIGN_RIGHT =? 0 then Align.Right
    else Align.Left in
  let new_valign :=
    if strcmp valign_str S_VALIGN_CENTER =? 0 then VAlign.Center
    else if strcmp valign_str S_VALIGN_BOTTOM =? 0 then VAlign.Bottom
    else VAlign.Top in
  {| text := new_text_field;
     tex := tex s; cx := cx s; cy := cy s;
     hfont := hfont s; font := font s;
     read_from_file := new_use_file;
     file := new_file_field;
     face := new_face;
     face_size := to_LONG font_size;
     color := new_color;
     opacity := new_opacity;
     bk_color := bk_color s; bk_opacity := bk_opacity s;
     align := new_align;
     valign := new_valign;
     bold := negb (Z.land font_flags (OBS_FONT_BOLD P) =? 0);
     italic := negb (Z.land font_flags (OBS_FONT_ITALIC P) =? 0);
     underline := negb (Z.land font_flags (OBS_FONT_UNDERLINE P) =? 0);
     strikeout := negb (Z.land font_flags (OBS_FONT_STRIKEOUT P) =? 0);
     vertical := new_vertical;
     use_outline := new_outline;
     outline_size := F32.roundf (F32.of_Z new_o_size);
     outline_color := new_o_color;
     outline_opacity := new_o_opacity;
     use_extents := use_extents s; wrap := wrap s;
     extents_cx := extents_cx s; extents_cy := extents_cy s |}.

(** [Update] (lines 484-564): the settings, then [UpdateFont] and
    [RenderText]. *)
Definition Update (P : Platform) (settings : gmap string obs_value) (s : t)
    : option (t * list gs_event) :=
  RenderText P (UpdateFont P (apply_settings P settings s)).

(** [Render] (lines 566-574): the calls of one frame. *)
Definition Render (s : t) : list gs_event :=
  match tex s with
  | None => []
  | Some cur =>
      [gs_reset_blend_state;
       gs_effect_set_texture "image" cur;
       gs_draw_sprite cur 0 (cx s) (cy s)]
  end.

(** The [get_width] and [get_height] callbacks (lines 702-709). *)
Definition get_width (s : t) : Z := cx s.
Definition get_height (s : t) : Z := cy s.

(** The destructor (lines 206-213). *)
Definition Destroy (s : t) : list gs_event :=
  match tex s with
  | Some cur => [obs_enter_graphics; gs_texture_destroy cur; obs_leave_graphics]
  | None => []
  end.

End TextSource.

(* ------------------------------------------------------------------------- *)
(** ** Notions the statements use *)

Import TextSource.

(** The glyph block of [RenderText] goes through the null font pointer:
    there is text to draw, with an outline, and no font was resolved. *)
Definition null_font_use (s : TextSource.t) : bool :=
  negb (wstring_empty (text s)) && use_outline s
  && match font s with None => true | Some _ => false end.

(** The state [RenderText] starts from inside an update. *)
Definition Update_state (P : Platform) (settings : gmap string obs_value)
    (s : TextSource.t) : TextSource.t :=
  UpdateFont P (apply_settings P settings s).

(** The canvas size [RenderText] computes in a state, and the one an update
    computes. *)
Definition RenderText_canvas (P : Platform) (s : TextSource.t) : SIZE.t :=
  snd (CalculateTextSizes P s
         (GetStringFormat s StringFormat.GenericTypographic) RectF.zero).

Definition Update_canvas (P : Platform) (settings : gmap string obs_value)
    (s : TextSource.t) : SIZE.t :=
  RenderText_canvas P (Update_state P settings s).

(** The content an update is given: the file's text when the source reads
    from a file, the typed text otherwise. *)
Definition supplied_content (P : Platform) (settings : gmap string obs_value)
    : wstring :=
  if obs_data_get_bool (Some settings) S_USE_FILE
  then to_wide P (os_quick_read_utf8_file P
                    (obs_data_get_string (Some settings) S_FILE))
  else to_wide P (Some (obs_data_get_string (Some settings) S_TEXT)).

(** The integer fields hold values of their C types. *)
Record well_typed (s : TextSource.t) : Prop := {
  wt_cx : is_uint32 (cx s);
  wt_cy : is_uint32 (cy s);
  wt_extents_cx : is_uint32 (extents_cx s);
  wt_extents_cy : is_uint32 (extents_cy s)
}.

(** States the host can reach: construction, then updates. *)
Inductive reachable : TextSource.t -> Prop :=
  | reach_init : reachable TextSource.init
  | reach_update P settings s s' events :
      reachable s ->
      Update P settings s = Some (s', events) ->
      reachable s'.

(** The keys [Update] asks the settings for. *)
Definition read_keys : list string :=
  [S_TEXT; S_FONT; S_ALIGN; S_VALIGN; S_COLOR; S_OPACITY; S_VERTICAL;
   S_OUTLINE; S_OUTLINE_COLOR; S_OUTLINE_OPACITY; S_OUTLINE_SIZE;
   S_USE_FILE; S_FILE].

Definition is_destroy (e : gs_event) : bool :=
  match e with gs_texture_destroy _ => true | _ => false end.

Definition is_create (e : gs_event) : bool :=
  match e with gs_texture_create _ _ _ _ => true | _ => false end.

(** The events that destroy the texture a state holds. *)
Definition destroy_of (cur : option gs_texture) : list gs_event :=
  match cur with
  | Some old => [gs_texture_destroy old]
  | None => []
  end.

(* ------------------------------------------------------------------------- *)
(** ** A concrete outside world, for examples *)

Definition ascii_code (a : Ascii.ascii) : wchar_t := Z.of_N (Ascii.N_of_ascii a).

(** One code unit per byte: UTF-8 decoding of ASCII text. *)
Definition decode_ascii (utf8 : option string) : wstring :=
  match utf8 with
  | Some str => map ascii_code (String.list_ascii_of_string str)
  | None => []
  end.

(** [1e-4f]. *)
Definition EPSILON_1em4 : F32.float := S754_finite false 13743895 (-37).

(** Fixed-pitch metrics: eight pixels a character, sixteen a line. Fonts
    and textures are created unless [fonts] or [textures] says otherwise. *)
Definition fixed_pitch (fonts textures : bool) : Platform :=
  {| os_utf8_to_wcs := decode_ascii;
     os_quick_read_utf8_file := fun _ => None;
     CreateFontIndirect := fun _ => if fonts then Some 1 else None;
     MeasureString := fun str _ _ _ _ _ =>
       RectF.mk F32.zero F32.zero
                (F32.of_Z (8 * Z.of_nat (length str))) (F32.of_Z 16);
     gs_texture_create_result := fun w h _ =>
       if textures then Some (w * 65536 + h) else None;
     EPSILON := EPSILON_1em4;
     OBS_FONT_BOLD := 1;
     OBS_FONT_ITALIC := 2;
     OBS_FONT_UNDERLINE := 4;
     OBS_FONT_STRIKEOUT := 8 |}.

Definition sample_platform : Platform := fixed_pitch true true.

Definition sample_settings (txt : string) (size : Z)
    : gmap string obs_value :=
  {[ S_TEXT := OString txt;
     S_FONT := OObj {[ "face" := OString "Arial"; "size" := OInt size ]};
     S_COLOR := OInt 0x112233;
     S_OPACITY := OInt 100;
     S_ALIGN := OString "middle";
     S_VALIGN := OString "baseline" ]}.

(** The text [a] followed by one newline. *)
Definition a_newline : string :=
  String (Ascii.ascii_of_nat 97) (String (Ascii.ascii_of_nat 10) EmptyString).

(** The state in which [RenderText] runs for the sample settings. *)
Definition sample_state (txt : string) (size : Z) : TextSource.t :=
  Update_state sample_platform (sample_settings txt size) TextSource.init.

(** A state with extents switched on, which no update produces. *)
Definition with_extents (s : TextSource.t) (w : bool) (ecx ecy : Z)
    : TextSource.t :=
  TextSource.mk (text s) (tex s) (cx s) (cy s) (hfont s) (font s)
    (read_from_file s) (file s) (face s) (face_size s) (color s) (opacity s)
    (bk_color s) (bk_opacity s) (align s) (valign s) (bold s) (italic s)
    (underline s) (strikeout s) (vertical s) (use_outline s) (outline_size s)
    (outline_color s) (outline_opacity s) true w ecx ecy.

(* ------------------------------------------------------------------------- *)
(** ** The bitmap, the texture protocol and runs *)

(** The bitmap [RenderText] builds before the texture step (lines 410-459):
    the canvas, its stride, the background and the glyphs. *)
Definition rendered_bitmap (P : Platform) (s : TextSource.t) : Bitmap :=
  let format := GetStringFormat s StringFormat.GenericTypographic in
  let '(box, size) := CalculateTextSizes P s format RectF.zero in
  {| bitmap_width := SIZE.cx size;
     bitmap_height := SIZE.cy size;
     bitmap_stride := to_LONG (4 * SIZE.cx size);
     bitmap_ops :=
       background_ops s box size
       ++ match glyph_ops s box format with
          | Some (_, glyphs) => glyphs
          | None => []
          end |}.

(** The colour a draw operation carries, if any. *)
Definition op_colour (op : draw_op) : Z :=
  match op with
  | Clear argb => argb
  | FillRectangle argb _ => argb
  | DrawString _ _ _ _ _ brush => brush
  | DrawPath pen _ _ _ _ _ _ => pen
  | FillPath brush _ _ _ _ _ => brush
  end.

(** The string a draw operation draws, if it draws one. *)
Definition op_string (op : draw_op) : option wstring :=
  match op with
  | Clear _ | FillRectangle _ _ => None
  | DrawString str _ _ _ _ _ => Some str
  | DrawPath _ _ str _ _ _ _ => Some str
  | FillPath _ str _ _ _ _ => Some str
  end.

(** What the host sees of one text source: whether the source is inside the
    graphics context it entered, and the texture it holds. *)
Record gs_owner : Type := { in_graphics : bool; held : option gs_texture }.

Definition holds (o : gs_owner) (t : gs_texture) : bool :=
  match held o with
  | Some h => h =? t
  | None => false
  end.

(** One call, checked against the rules of the host: enter and leave
    alternate; a texture is created, destroyed and written only inside the
    context; only the held texture is destroyed, written or drawn; nothing
    is created while a texture is held. *)
Definition gs_step (o : gs_owner) (e : gs_event) : option gs_owner :=
  match e with
  | obs_enter_graphics =>
      if in_graphics o then None
      else Some {| in_graphics := true; held := held o |}
  | obs_leave_graphics =>
      if in_graphics o then Some {| in_graphics := false; held := held o |}
      else None
  | gs_texture_destroy t =>
      if in_graphics o && holds o t
      then Some {| in_graphics := true; held := None |}
      else None
  | gs_texture_create _ _ _ result =>
      match held o with
      | None => if in_graphics o
                then Some {| in_graphics := true; held := result |}
                else None
      | Some _ => None
      end
  | gs_texture_set_image t _ _ =>
      if in_graphics o && holds o t then Some o else None
  | gs_reset_blend_state => Some o
  | gs_effect_set_texture _ t => if holds o t then Some o else None
  | gs_draw_sprite t _ _ _ => if holds o t then Some o else None
  end.

Fixpoint gs_replay (o : gs_owner) (events : list gs_event)
    : option gs_owner :=
  match events with
  | [] => Some o
  | e :: rest =>
      match gs_step o e with
      | Some o' => gs_replay o' rest
      | None => None
      end
  end.

(** The life of one source up to now: construction, then updates and frames
    in any order, with every call made to the host so far. *)
Inductive run : TextSource.t -> list gs_event -> Prop :=
  | run_init : run TextSource.init []
  | run_update P settings s trace s' events :
      run s trace ->
      Update P settings s = Some (s', events) ->
      run s' (trace ++ events)
  | run_render s trace :
      run s trace ->
      run s (trace ++ Render s).

Definition is_upload (e : gs_event) : bool :=
  match e with
  | gs_texture_create _ _ _ _ | gs_texture_set_image _ _ _ => true
  | _ => false
  end.

Definition is_bracket (e : gs_event) : bool :=
  match e with
  | obs_enter_graphics | obs_leave_graphics => true
  | _ => false
  end.

(** The bitmap an upload carries. *)
Definition uploaded (e : gs_event) : option Bitmap :=
  match e with
  | gs_texture_create _ _ data _ => Some data
  | gs_texture_set_image _ data _ => Some data
  | _ => None
  end.

(** The settings keys that carry colours and opacities. *)
Definition colour_keys : list string :=
  [S_COLOR; S_OPACITY; S_OUTLINE_COLOR; S_OUTLINE_OPACITY].

(** Equality of two floats as data. *)
Definition float_same (x y : F32.float) : bool :=
  match x, y with
  | S754_zero a, S754_zero b => Bool.eqb a b
  | S754_infinity a, S754_infinity b => Bool.eqb a b
  | S754_nan, S754_nan => true
  | S754_finite a m e, S754_finite b n f =>
      Bool.eqb a b && Pos.eqb m n && Z.eqb e f
  | _, _ => false
  end.

(** The alignment a horizontal line of text gets for each setting, and the
    one across the lines. *)
Definition near_center_far (a : Align.t) : StringAlignment :=
  match a with
  | Align.Left => StringAlignmentNear
  | Align.Center => StringAlignmentCenter
  | Align.Right => StringAlignmentFar
  end.

Definition top_center_bottom (v : VAlign.t) : StringAlignment :=
  match v with
  | VAlign.Top => StringAlignmentNear
  | VAlign.Center => StringAlignmentCenter
  | VAlign.Bottom => StringAlignmentFar
  end.

Definition opposite (a : StringAlignment) : StringAlignment :=
  match a with
  | StringAlignmentNear => StringAlignmentFar
  | StringAlignmentCenter => StringAlignmentCenter
  | StringAlignmentFar => StringAlignmentNear
  end.

(** A state with other colours and opacities. *)
Definition set_colours (s : TextSource.t) (c o oc oo : Z) : TextSource.t :=
  TextSource.mk (text s) (tex s) (cx s) (cy s) (hfont s) (font s)
    (read_from_file s) (file s) (face s) (face_size s) c o
    (bk_color s) (bk_opacity s) (align s) (valign s) (bold s) (italic s)
    (underline s) (strikeout s) (vertical s) (use_outline s) (outline_size s)
    oc oo (use_extents s) (wrap s) (extents_cx s) (extents_cy s).

(* ------------------------------------------------------------------------- *)
(** ** The handle wrapper (lines 114-139) *)

Module GDIObj.

(** [template class GDIObj]: the handle held, nothing for null. *)
Definition t : Type := option Z.

(** A call of the deleter ([DeleteObject], [DeleteDC]), on a handle or on
    null. *)
Inductive call : Type := deleter (obj : option Z).

(** [Replace]: the old handle is deleted unless it is null. *)
Definition Replace (obj : t) (obj_ : t) : t * list call :=
  (obj_, match obj with
         | Some h => [deleter (Some h)]
         | None => []
         end).

(** [operator=]. *)
Definition assign (obj : t) (obj_ : t) : t * list call := Replace obj obj_.

(** The destructor deletes whatever is held, null included. *)
Definition destructor (obj : t) : list call := [deleter obj].

End GDIObj.

(** The assignments to [hfont] in [UpdateFont] (lines 230-249), through the
    wrapper: the handle held at the end and the deleter calls made. *)
Definition UpdateFont_hfont (P : Platform) (s : TextSource.t)
    : GDIObj.t * list GDIObj.call :=
  let '(h0, d0) := GDIObj.assign (hfont s) None in
  let lf := {| lfHeight := face_size s;
               lfWeight := if bold s then FW_BOLD else FW_DONTCARE;
               lfItalic := italic s;
               lfUnderline := underline s;
               lfStrikeOut := strikeout s;
               lfQuality := ANTIALIASED_QUALITY;
               lfFaceName := [] |} in
  let '(h1, d1) :=
    if negb (wstring_empty (face s))
    then GDIObj.assign h0 (CreateFontIndirect P (wcscpy_face lf (face s)))
    else (h0, []) in
  let '(h2, d2) :=
    match h1 with
    | None => GDIObj.assign h1 (CreateFontIndirect P (wcscpy_face lf Arial))
    | Some _ => (h1, [])
    end in
  (h2, d0 ++ d1 ++ d2).

(* ------------------------------------------------------------------------- *)
(** ** The property panel (lines 584-680) *)

(** [std::replace] on the characters of a string. *)
Fixpoint replace_char (old new : Ascii.ascii) (str : string) : string :=
  match str with
  | EmptyString => EmptyString
  | String a rest =>
      String (if Ascii.eqb a old then new else a) (replace_char old new rest)
  end.

(** [strrchr]: the offset of the last occurrence, nothing when there is
    none. *)
Fixpoint strrchr (str : string) (c : Ascii.ascii) : option nat :=
  match str with
  | EmptyString => None
  | String a rest =>
      match strrchr rest c with
      | Some i => Some (S i)
      | None => if Ascii.eqb a c then Some O else None
      end
  end.

(** [std::string::resize]: the first [n] characters, padded with NUL. *)
Fixpoint resize (str : string) (n : nat) : string :=
  match n with
  | O => EmptyString
  | S k =>
      match str with
      | String a rest => String a (resize rest k)
      | EmptyString => String Ascii.zero (resize EmptyString k)
      end
  end.

Definition backslash : Ascii.ascii := Ascii.ascii_of_nat 92.
Definition slash : Ascii.ascii := Ascii.ascii_of_nat 47.

(** [get_properties], the directory offered by the file dialog (lines
    640-648): the file with backslashes turned into slashes, cut after its
    last slash. *)
Definition default_path (data : option TextSource.t) : string :=
  match data with
  | Some s =>
      match file s with
      | EmptyString => EmptyString
      | String _ _ =>
          let path := replace_char backslash slash (file s) in
          match strrchr path slash with
          | Some i => resize path (i + 1)
          | None => path
          end
      end
  | None => EmptyString
  end.

(** Modelled from the spec: the property panel of the host, which is
    outside the file. A panel is the list of the properties added, each
    with its key, its description, what it edits, whether it is shown and
    the callback run when it is modified; a new property is shown. *)
Inductive prop_type : Type :=
  | PropFont
  | PropBool
  | PropTextMultiline
  | PropPathFile (filter default : string)
  | PropColor
  | PropIntSlider (min max step : Z)
  | PropInt (min max step : Z)
  | PropListString (items : list (string * string)).

Inductive modified_callback : Set :=
  | cb_use_file_changed
  | cb_outline_changed.

Record obs_property : Type := {
  prop_name : string;
  prop_desc : string;
  prop_kind : prop_type;
  prop_visible : bool;
  prop_modified : option modified_callback
}.

Definition new_property (name desc : string) (kind : prop_type)
    (cb : option modified_callback) : obs_property :=
  {| prop_name := name; prop_desc := desc; prop_kind := kind;
     prop_visible := true; prop_modified := cb |}.

(** [obs_properties_get] followed by [obs_property_set_visible]: the first
    property of that name gets the flag; nothing happens when there is
    none. *)
Fixpoint set_visible (props : list obs_property) (name : string)
    (visible : bool) : list obs_property :=
  match props with
  | [] => []
  | p :: rest =>
      if String.eqb (prop_name p) name
      then {| prop_name := prop_name p; prop_desc := prop_desc p;
              prop_kind := prop_kind p; prop_visible := visible;
              prop_modified := prop_modified p |} :: rest
      else p :: set_visible rest name visible
  end.

(** Whether the property of that name is shown. *)
Fixpoint is_visible (props : list obs_property) (name : string)
    : option bool :=
  match props with
  | [] => None
  | p :: rest =>
      if String.eqb (prop_name p) name then Some (prop_visible p)
      else is_visible rest name
  end.

(** [use_file_changed] (lines 584-600). *)
Definition use_file_changed (props : list obs_property)
    (settings : gmap string obs_value) : list obs_property * bool :=
  let use_file := obs_data_get_bool (Some settings) S_USE_FILE in
  let props := set_visible props S_TEXT (Bool.eqb use_file false) in
  let props := set_visible props S_FILE (Bool.eqb use_file true) in
  (props, true).

(** [outline_changed] (lines 602-619). *)
Definition outline_changed (props : list obs_property)
    (settings : gmap string obs_value) : list obs_property * bool :=
  let outline := obs_data_get_bool (Some settings) S_OUTLINE in
  let props := set_visible props S_OUTLINE_SIZE outline in
  let props := set_visible props S_OUTLINE_COLOR outline in
  let props := set_visible props S_OUTLINE_OPACITY outline in
  (props, true).

(** [get_properties] (lines 621-680). [T_] is the lookup of a localised
    text, [obs_module_text]. *)
Definition get_properties (T_ : string -> string) (data : option TextSource.t)
    : list obs_property :=
  let filter :=
    (T_ "Filter.TextFiles" ++ " (" ++ "*.txt);;" ++ T_ "Filter.AllFiles"
     ++ " (" ++ "*.*" ++ ")")%string in
  let path := default_path data in
  [ new_property S_FONT (T_ "Font") PropFont None;
    new_property S_USE_FILE (T_ "ReadFromFile") PropBool
      (Some cb_use_file_changed);
    new_property S_TEXT (T_ "Text") PropTextMultiline None;
    new_property S_FILE (T_ "TextFile") (PropPathFile filter path) None;
    new_property S_VERTICAL (T_ "Veritcal") PropBool None;
    new_property S_COLOR (T_ "Color") PropColor None;
    new_property S_OPACITY (T_ "Opacity") (PropIntSlider 0 100 1) None;
    new_property S_ALIGN (T_ "Alignment")
      (PropListString [ (T_ "Alignment.Left", S_ALIGN_LEFT);
                        (T_ "Alignment.Center", S_ALIGN_CENTER);
                        (T_ "Alignment.Right", S_ALIGN_RIGHT) ]) None;
    new_property S_VALIGN (T_ "VerticalAlignment")
      (PropListString [ (T_ "VerticalAlignment.Top", S_VALIGN_TOP);
                        (T_ "Alignment.Center", S_VALIGN_CENTER);
                        (T_ "VerticalAlignment.Bottom", S_VALIGN_BOTTOM) ])
      None;
    new_property S_OUTLINE (T_ "Outline") PropBool (Some cb_outline_changed);
    new_property S_OUTLINE_SIZE (T_ "Outline.Size") (PropInt 1 20 1) None;
    new_property S_OUTLINE_COLOR (T_ "Outline.Color") PropColor None;
    new_property S_OUTLINE_OPACITY (T_ "Outline.Opacity")
      (PropIntSlider 0 100 1) None ].

(** The values a list property offers. *)
Definition offered_values (props : list obs_property) (name : string)
    : list string :=
  match find (fun p => String.eqb (prop_name p) name) props with
  | Some p =>
      match prop_kind p with
      | PropListString items => map snd items
      | _ => []
      end
  | None => []
  end.

(** The characters of a string. *)
Definition chars (str : string) : list Ascii.ascii :=
  String.list_ascii_of_string str.

(* ========================================================================= *)
(** * Facts *)

(* ------------------------------------------------------------------------- *)
(** ** Machine integers, clamp, even rounding *)

Lemma to_uint32_range z : is_uint32 (to_uint32 z).
Proof. unfold is_uint32, to_uint32. apply Z.mod_pos_bound. lia. Qed.

Lemma to_uint32_small z : is_uint32 z -> to_uint32 z = z.
Proof. unfold is_uint32, to_uint32. intros H. apply Z.mod_small. lia. Qed.

Lemma to_LONG_range z : is_LONG (to_LONG z).
Proof.
  unfold is_LONG, to_LONG.
  pose proof (Z.mod_pos_bound (z + 2 ^ 31) (2 ^ 32)). lia.
Qed.

Lemma to_LONG_small z : is_LONG z -> to_LONG z = z.
Proof.
  unfold is_LONG, to_LONG. intros H.
  rewrite Z.mod_small; lia.
Qed.

Lemma to_LONG_uint32_small z : 0 <= z < 2 ^ 31 -> to_LONG z = z.
Proof. intros H. apply to_LONG_small. unfold is_LONG. lia. Qed.

(** Wrapping to 32 bits keeps the parity. *)
Lemma to_LONG_even z : Z.even (to_LONG z) = Z.even z.
Proof.
  unfold to_LONG.
  rewrite Z.mod_eq by lia.
  replace (z + 2 ^ 31 - 2 ^ 32 * ((z + 2 ^ 31) / 2 ^ 32) - 2 ^ 31)
    with (z - 2 * (2 ^ 31 * ((z + 2 ^ 31) / 2 ^ 32))) by lia.
  rewrite Z.even_sub, Z.even_mul. simpl.
  destruct (Z.even z); reflexivity.
Qed.

Lemma clamp_range v lo hi : lo <= hi -> lo <= clamp v lo hi <= hi.
Proof.
  intros H. unfold clamp.
  destruct (Z.ltb_spec v lo); [lia|].
  destruct (Z.gtb_spec v hi); lia.
Qed.

Lemma clamp_inside v lo hi : lo <= v <= hi -> clamp v lo hi = v.
Proof.
  intros H. unfold clamp.
  destruct (Z.ltb_spec v lo); [lia|].
  destruct (Z.gtb_spec v hi); lia.
Qed.

Lemma clamp_even v lo hi :
  Z.even lo = true -> Z.even hi = true -> Z.even v = true ->
  Z.even (clamp v lo hi) = true.
Proof.
  intros Hlo Hhi Hv. unfold clamp.
  destruct (v <? lo); [assumption|].
  destruct (v >? hi); assumption.
Qed.

(** What [v += v % 2] adds: nothing to an even value, one to an odd value
    that is not negative, minus one to a negative odd value. *)
Lemma round_even_step v :
  round_even v
  = to_LONG (v + (if Z.odd v then (if v <? 0 then -1 else 1) else 0)).
Proof.
  unfold round_even. rewrite Zrem_odd.
  destruct (Z.odd v) eqn:Hodd; [|reflexivity].
  destruct (Z.ltb_spec v 0) as [Hneg|Hpos].
  - rewrite Z.sgn_neg by assumption. reflexivity.
  - assert (v <> 0) by (intros ->; discriminate).
    rewrite Z.sgn_pos by lia. reflexivity.
Qed.

Lemma round_even_even v : Z.even (round_even v) = true.
Proof.
  rewrite round_even_step, to_LONG_even, Z.even_add.
  rewrite <- Z.negb_odd.
  destruct (Z.odd v); [|reflexivity].
  destruct (v <? 0); reflexivity.
Qed.

Lemma round_even_of_even v : is_LONG v -> Z.even v = true -> round_even v = v.
Proof.
  intros Hv He. rewrite round_even_step.
  rewrite <- Z.negb_odd in He. apply negb_true_iff in He. rewrite He.
  rewrite Z.add_0_r. apply to_LONG_small, Hv.
Qed.

Lemma round_even_of_odd v :
  0 <= v < 2 ^ 31 - 1 -> Z.odd v = true -> round_even v = v + 1.
Proof.
  intros Hv Ho. rewrite round_even_step, Ho.
  destruct (Z.ltb_spec v 0); [lia|].
  apply to_LONG_small. unfold is_LONG. lia.
Qed.

Lemma quantize_cx sz :
  SIZE.cx (quantize sz) = clamp (round_even (SIZE.cx sz)) MIN_SIZE_CX MAX_SIZE_CX.
Proof. reflexivity. Qed.

Lemma quantize_cy sz :
  SIZE.cy (quantize sz) = clamp (round_even (SIZE.cy sz)) MIN_SIZE_CY MAX_SIZE_CY.
Proof. reflexivity. Qed.

Lemma quantize_bounds sz :
  (Z.even (SIZE.cx (quantize sz)) = true /\ 32 <= SIZE.cx (quantize sz) <= 8192)
  /\ (Z.even (SIZE.cy (quantize sz)) = true /\ 32 <= SIZE.cy (quantize sz) <= 8192).
Proof.
  rewrite quantize_cx, quantize_cy.
  unfold MIN_SIZE_CX, MIN_SIZE_CY, MAX_SIZE_CX, MAX_SIZE_CY.
  repeat split;
    try (apply clamp_even; [reflexivity | reflexivity | apply round_even_even]);
    apply clamp_range; lia.
Qed.

(** [CalculateTextSizes] by its parts. *)
Lemma CalculateTextSizes_size P s format bb :
  snd (CalculateTextSizes P s format bb)
  = quantize (apply_extents s
                (snd (measured_size P s (measure_text P s format bb)))).
Proof.
  unfold CalculateTextSizes.
  destruct (measured_size P s (measure_text P s format bb)); reflexivity.
Qed.

Lemma CalculateTextSizes_box P s format bb :
  fst (CalculateTextSizes P s format bb)
  = fst (measured_size P s (measure_text P s format bb)).
Proof.
  unfold CalculateTextSizes.
  destruct (measured_size P s (measure_text P s format bb)); reflexivity.
Qed.

(* ------------------------------------------------------------------------- *)
(** ** The layout calculator *)

(** C1. For every configuration (platform, state, format and incoming
    bounding box), the canvas width and height that [CalculateTextSizes]
    computes are even and lie in [32, 8192]. Each is the clamp of the
    even-rounded dimension, so the clamp comes after the even-rounding, and
    the even-rounding adds one to an odd dimension (minus one when the odd
    value is negative, which the clamp then raises to 32). *)
Theorem canvas_even_and_clamped P s format bb :
  let pre :=
    apply_extents s (snd (measured_size P s (measure_text P s format bb))) in
  let size := snd (CalculateTextSizes P s format bb) in
  (Z.even (SIZE.cx size) = true /\ 32 <= SIZE.cx size <= 8192)
  /\ (Z.even (SIZE.cy size) = true /\ 32 <= SIZE.cy size <= 8192)
  /\ SIZE.cx size = clamp (round_even (SIZE.cx pre)) 32 8192
  /\ SIZE.cy size = clamp (round_even (SIZE.cy pre)) 32 8192
  /\ round_even (SIZE.cx pre)
     = to_LONG (SIZE.cx pre
                + (if Z.odd (SIZE.cx pre)
                   then (if SIZE.cx pre <? 0 then -1 else 1) else 0))
  /\ round_even (SIZE.cy pre)
     = to_LONG (SIZE.cy pre
                + (if Z.odd (SIZE.cy pre)
                   then (if SIZE.cy pre <? 0 then -1 else 1) else 0)).
Proof.
  intros pre size. subst size. rewrite CalculateTextSizes_size. fold pre.
  destruct (quantize_bounds pre) as [Hx Hy].
  split; [exact Hx|]. split; [exact Hy|].
  split; [apply quantize_cx|]. split; [apply quantize_cy|].
  split; apply round_even_step.
Qed.

(** Twelve characters measure 96 pixels; the font size, 41, floors the
    height, which is rounded to 42. *)
Example canvas_of_sample :
  snd (CalculateTextSizes sample_platform (sample_state "Hello, world" 41)
         StringFormat.GenericTypographic RectF.zero)
  = SIZE.mk 96 42.
Proof. vm_compute. reflexivity. Qed.

(** C3, as stated, fails: with extents-mode and wrap on, a non-empty text
    and requested extents of 33 by 5, the canvas is 34 by 32. *)
Lemma odd_extents_not_exact :
  let s := with_extents (sample_state "Hi" 22) true 33 5 in
  let size := snd (CalculateTextSizes sample_platform s
                     (GetStringFormat s StringFormat.GenericTypographic)
                     RectF.zero) in
  text s <> [] /\ use_extents s = true /\ wrap s = true
  /\ size = SIZE.mk 34 32
  /\ size <> SIZE.mk (extents_cx s) (extents_cy s).
Proof. vm_compute. repeat split; discriminate. Qed.

(** C3, amended. With extents-mode and wrap on, whatever the text, each
    canvas dimension is the requested extent, read as a [LONG], rounded to
    even and clamped to [32, 8192]; it is the requested extent itself when
    that extent is even and within [32, 8192]. *)
Theorem extents_wrap_canvas P s format bb :
  use_extents s = true -> wrap s = true ->
  let size := snd (CalculateTextSizes P s format bb) in
  SIZE.cx size = clamp (round_even (to_LONG (extents_cx s))) 32 8192
  /\ SIZE.cy size = clamp (round_even (to_LONG (extents_cy s))) 32 8192
  /\ (Z.even (extents_cx s) = true -> 32 <= extents_cx s <= 8192 ->
      SIZE.cx size = extents_cx s)
  /\ (Z.even (extents_cy s) = true -> 32 <= extents_cy s <= 8192 ->
      SIZE.cy size = extents_cy s).
Proof.
  intros Hext Hwrap size. subst size. rewrite CalculateTextSizes_size.
  unfold apply_extents. rewrite Hext, Hwrap.
  rewrite quantize_cx, quantize_cy. cbn [SIZE.cx SIZE.cy].
  unfold MIN_SIZE_CX, MIN_SIZE_CY, MAX_SIZE_CX, MAX_SIZE_CY.
  split; [reflexivity|]. split; [reflexivity|].
  split; intros Heven Hrange.
  - rewrite (to_LONG_uint32_small (extents_cx s)) by lia.
    rewrite round_even_of_even by (unfold is_LONG; lia || assumption).
    apply clamp_inside, Hrange.
  - rewrite (to_LONG_uint32_small (extents_cy s)) by lia.
    rewrite round_even_of_even by (unfold is_LONG; lia || assumption).
    apply clamp_inside, Hrange.
Qed.

Lemma extents_wrap_canvas_witness :
  let s := with_extents (sample_state "Hi" 22) true 100 50 in
  let size := snd (CalculateTextSizes sample_platform s
                     (GetStringFormat s StringFormat.GenericTypographic)
                     RectF.zero) in
  SIZE.cx size = 100 /\ SIZE.cy size = 50.
Proof.
  intros s size.
  destruct (extents_wrap_canvas sample_platform s
              (GetStringFormat s StringFormat.GenericTypographic) RectF.zero
              eq_refl eq_refl) as (_ & _ & Hx & Hy).
  split.
  - apply Hx; [reflexivity | simpl; lia].
  - apply Hy; [reflexivity | simpl; lia].
Defined.

(** C6, as stated, fails. A text that measures 16 by 40, with extents of
    33 by 50: the extents width exceeds the measured width, and the canvas
    width is 34, not the extents width. The same text with extents of
    3000000000 by 50: the extents width exceeds the measured width too, but
    as a [LONG] it is negative, so the width is not taken, the height is
    compared and replaced, and the canvas is 32 by 50. A text that measures
    16 by 22, with extents of 100 by 50: the width is taken, and the canvas
    height is 32, not the measured height. *)
Lemma extents_nowrap_claim_fails :
  let s1 := with_extents (sample_state "Hi" 40) false 33 50 in
  let s2 := with_extents (sample_state "Hi" 40) false 3000000000 50 in
  let s3 := with_extents (sample_state "Hi" 22) false 100 50 in
  let measured s :=
    snd (measured_size sample_platform s
           (measure_text sample_platform s
              (GetStringFormat s StringFormat.GenericTypographic)
              RectF.zero)) in
  let canvas s :=
    snd (CalculateTextSizes sample_platform s
           (GetStringFormat s StringFormat.GenericTypographic)
           RectF.zero) in
  (measured s1 = SIZE.mk 16 40
   /\ extents_cx s1 > SIZE.cx (measured s1)
   /\ canvas s1 = SIZE.mk 34 40
   /\ SIZE.cx (canvas s1) <> extents_cx s1)
  /\ (measured s2 = SIZE.mk 16 40
      /\ extents_cx s2 > SIZE.cx (measured s2)
      /\ canvas s2 = SIZE.mk 32 50
      /\ SIZE.cx (canvas s2) <> extents_cx s2
      /\ SIZE.cy (canvas s2) <> SIZE.cy (measured s2))
  /\ (measured s3 = SIZE.mk 16 22
      /\ extents_cx s3 > SIZE.cx (measured s3)
      /\ canvas s3 = SIZE.mk 100 32
      /\ SIZE.cy (canvas s3) <> SIZE.cy (measured s3)).
Proof. vm_compute. repeat split; discriminate. Qed.

(** C6, amended. With extents-mode on and wrap off the substitution, made
    before the even-rounding and the clamp and on the extents read as
    [LONG], is an either/or. When the extents width exceeds the measured
    width, the width becomes the extents width and the measured height is
    kept, whatever the extents height. Only when it does not is the extents
    height compared, and substituted when it exceeds the measured height.
    The canvas is that size, even-rounded and clamped to [32, 8192]. *)
Theorem extents_nowrap_either_or P s format bb :
  use_extents s = true -> wrap s = false ->
  let m := snd (measured_size P s (measure_text P s format bb)) in
  let size := snd (CalculateTextSizes P s format bb) in
  (to_LONG (extents_cx s) > SIZE.cx m ->
   apply_extents s m = SIZE.mk (to_LONG (extents_cx s)) (SIZE.cy m)
   /\ size = quantize (SIZE.mk (to_LONG (extents_cx s)) (SIZE.cy m)))
  /\ (to_LONG (extents_cx s) <= SIZE.cx m ->
      to_LONG (extents_cy s) > SIZE.cy m ->
      apply_extents s m = SIZE.mk (SIZE.cx m) (to_LONG (extents_cy s))
      /\ size = quantize (SIZE.mk (SIZE.cx m) (to_LONG (extents_cy s))))
  /\ (to_LONG (extents_cx s) <= SIZE.cx m ->
      to_LONG (extents_cy s) <= SIZE.cy m ->
      apply_extents s m = m /\ size = quantize m).
Proof.
  intros Hext Hwrap m size. subst size. rewrite CalculateTextSizes_size.
  fold m. unfold apply_extents. rewrite Hext, Hwrap.
  repeat split; intros.
  - destruct (Z.gtb_spec (to_LONG (extents_cx s)) (SIZE.cx m)); [reflexivity|lia].
  - destruct (Z.gtb_spec (to_LONG (extents_cx s)) (SIZE.cx m)); [reflexivity|lia].
  - destruct (Z.gtb_spec (to_LONG (extents_cx s)) (SIZE.cx m)); [lia|].
    destruct (Z.gtb_spec (to_LONG (extents_cy s)) (SIZE.cy m)); [reflexivity|lia].
  - destruct (Z.gtb_spec (to_LONG (extents_cx s)) (SIZE.cx m)); [lia|].
    destruct (Z.gtb_spec (to_LONG (extents_cy s)) (SIZE.cy m)); [reflexivity|lia].
  - destruct (Z.gtb_spec (to_LONG (extents_cx s)) (SIZE.cx m)); [lia|].
    destruct (Z.gtb_spec (to_LONG (extents_cy s)) (SIZE.cy m)); [lia|reflexivity].
  - destruct (Z.gtb_spec (to_LONG (extents_cx s)) (SIZE.cx m)); [lia|].
    destruct (Z.gtb_spec (to_LONG (extents_cy s)) (SIZE.cy m)); [lia|reflexivity].
Qed.

(** The text measures 16 by 40; extents of 100 by 50 exceed it on both axes,
    and only the width is taken: the canvas is 100 by 40. *)
Lemma extents_nowrap_either_or_witness :
  let s := with_extents (sample_state "Hi" 40) false 100 50 in
  let fmt := GetStringFormat s StringFormat.GenericTypographic in
  snd (measured_size sample_platform s
         (measure_text sample_platform s fmt RectF.zero)) = SIZE.mk 16 40
  /\ snd (CalculateTextSizes sample_platform s fmt RectF.zero) = SIZE.mk 100 40.
Proof.
  intros s fmt. split; [vm_compute; reflexivity|].
  destruct (extents_nowrap_either_or sample_platform s fmt RectF.zero
              eq_refl eq_refl) as (H & _ & _).
  destruct H as [_ H]; [vm_compute; reflexivity|].
  rewrite H. vm_compute. reflexivity.
Defined.

(* ------------------------------------------------------------------------- *)
(** ** Colours *)

(** C4, as stated, fails: at opacity 1 the quotient 255/100 rounds to 3, and
    the alpha byte is 2. *)
Lemma alpha_not_rounded :
  0 <= 1 <= 100
  /\ get_alpha_val 1 = Z.shiftl 2 24
  /\ get_alpha_val 1 <> Z.shiftl (Z.land (round_div (1 * 255) 100) 0xFF) 24.
Proof. vm_compute. repeat split; discriminate. Qed.

(** C4, amended. For an opacity in [0, 100] the alpha byte is the quotient
    [opacity * 255 / 100] rounded down; it is below 256, so the mask leaves
    it as it is, and it sits in the top byte of the 32-bit value. *)
Theorem alpha_truncated opacity :
  0 <= opacity <= 100 ->
  get_alpha_val opacity = Z.shiftl (Z.land (opacity * 255 / 100) 0xFF) 24
  /\ Z.shiftr (get_alpha_val opacity) 24 = opacity * 255 / 100
  /\ Z.land (get_alpha_val opacity) 0xFFFFFF = 0
  /\ 0 <= opacity * 255 / 100 <= 255.
Proof.
  intros Hop.
  assert (Hq : 0 <= opacity * 255 / 100 <= 255).
  { split.
    - apply Z.div_pos; lia.
    - apply Z.div_le_upper_bound; lia. }
  unfold get_alpha_val.
  rewrite (to_uint32_small (opacity * 255)) by (unfold is_uint32; lia).
  change 0xFF with (Z.ones 8). rewrite Z.land_ones by lia.
  rewrite (Z.mod_small (opacity * 255 / 100)) by (change (2 ^ 8) with 256; lia).
  rewrite Z.shiftl_mul_pow2 by lia.
  rewrite to_uint32_small by (unfold is_uint32; lia).
  split; [reflexivity|]. split; [|split; [|exact Hq]].
  - rewrite Z.shiftr_div_pow2 by lia. apply Z.div_mul. lia.
  - change 0xFFFFFF with (Z.ones 24). rewrite Z.land_ones by lia.
    apply Z.mod_mul. lia.
Qed.

Lemma alpha_truncated_witness :
  Z.shiftr (get_alpha_val 50) 24 = 127.
Proof.
  destruct (alpha_truncated 50) as (_ & H & _); [lia|].
  rewrite H. reflexivity.
Defined.

(** The bits of [x] under a run of [k] ones that starts at bit [j]. *)
Lemma land_shifted_ones x j k :
  0 <= j -> 0 <= k ->
  Z.land x (Z.shiftl (Z.ones k) j) = (x / 2 ^ j) mod 2 ^ k * 2 ^ j.
Proof.
  intros Hj Hk.
  rewrite <- Z.shiftl_mul_pow2, <- Z.land_ones, <- Z.shiftr_div_pow2 by lia.
  apply Z.bits_inj'. intros n Hn.
  rewrite Z.land_spec, !Z.shiftl_spec, Z.land_spec by lia.
  destruct (Z.ltb_spec n j) as [Hlt|Hge].
  - rewrite !(Z.testbit_neg_r _ (n - j)) by lia. apply andb_false_r.
  - rewrite Z.shiftr_spec by lia.
    replace (n - j + j) with n by lia. reflexivity.
Qed.

(** A value below [2 ^ n] shares no bit with a multiple of [2 ^ n]. *)
Lemma lor_disjoint_add hi lo n :
  0 <= n -> 0 <= lo < 2 ^ n -> Z.lor (hi * 2 ^ n) lo = hi * 2 ^ n + lo.
Proof.
  intros Hn Hlo.
  assert (Hnone : Z.land (hi * 2 ^ n) lo = 0).
  { apply Z.bits_inj'. intros i Hi.
    rewrite Z.land_spec, Z.bits_0.
    destruct (Z.ltb_spec i n) as [Hlt|Hge].
    - rewrite Z.mul_pow2_bits_low by lia. reflexivity.
    - rewrite <- (Z.mod_small lo (2 ^ n)) by lia.
      rewrite Z.mod_pow2_bits_high by lia. apply andb_false_r. }
  rewrite <- Z.lxor_lor by exact Hnone.
  symmetry. apply Z.add_nocarry_lxor, Hnone.
Qed.

(** [rgb_to_bgr] in arithmetic: the low byte goes to bits 16-23, the middle
    byte stays, the third byte comes down, and bits 24-31 are dropped. *)
Lemma rgb_to_bgr_arith x :
  rgb_to_bgr x = rgb24 (x mod 256) (x / 256 mod 256) (x / 65536 mod 256).
Proof.
  unfold rgb_to_bgr, rgb24.
  change 0xFF with (Z.ones 8).
  change 0xFF00 with (Z.shiftl (Z.ones 8) 8).
  change 0xFF0000 with (Z.shiftl (Z.ones 8) 16).
  rewrite Z.land_ones by lia.
  rewrite !land_shifted_ones by lia.
  rewrite Z.shiftl_mul_pow2 by lia.
  rewrite Z.shiftr_div_pow2 by lia.
  rewrite Z.div_mul by lia.
  change (2 ^ 8) with 256. change (2 ^ 16) with 65536.
  pose proof (Z.mod_pos_bound x 256 ltac:(lia)) as Hb.
  pose proof (Z.mod_pos_bound (x / 256) 256 ltac:(lia)) as Hg.
  pose proof (Z.mod_pos_bound (x / 65536) 256 ltac:(lia)) as Hr.
  rewrite to_uint32_small by (unfold is_uint32; lia).
  replace (x mod 256 * 65536) with (x mod 256 * 256 * 2 ^ 8) by lia.
  replace (x / 256 mod 256 * 256) with (x / 256 mod 256 * 2 ^ 8) by lia.
  rewrite <- Z.mul_add_distr_r.
  rewrite <- (lor_disjoint_add (x mod 256 * 256 + x / 256 mod 256)
                (x / 65536 mod 256) 8) by (change (2 ^ 8) with 256; lia).
  f_equal.
  rewrite Z.mul_add_distr_r.
  replace (x mod 256 * 256 * 2 ^ 8) with (x mod 256 * 2 ^ 16) by lia.
  apply (lor_disjoint_add (x mod 256) (x / 256 mod 256 * 2 ^ 8) 16).
  - lia.
  - change (2 ^ 8) with 256. change (2 ^ 16) with 65536. lia.
Qed.

Lemma rgb24_bytes r g b :
  0 <= r < 256 -> 0 <= g < 256 -> 0 <= b < 256 ->
  rgb24 r g b mod 256 = b
  /\ rgb24 r g b / 256 mod 256 = g
  /\ rgb24 r g b / 65536 mod 256 = r.
Proof.
  intros Hr Hg Hb. unfold rgb24.
  assert (H1 : (r * 65536 + g * 256 + b) / 256 = r * 256 + g).
  { symmetry. apply (Z.div_unique _ _ _ b); lia. }
  assert (H2 : (r * 65536 + g * 256 + b) / 65536 = r).
  { symmetry. apply (Z.div_unique _ _ _ (g * 256 + b)); lia. }
  rewrite H1, H2. repeat split.
  - symmetry. apply (Z.mod_unique _ _ (r * 256 + g)); lia.
  - symmetry. apply (Z.mod_unique _ _ r); lia.
  - apply Z.mod_small. lia.
Qed.

Lemma rgb_to_bgr_swap r g b :
  0 <= r < 256 -> 0 <= g < 256 -> 0 <= b < 256 ->
  rgb_to_bgr (rgb24 r g b) = rgb24 b g r.
Proof.
  intros Hr Hg Hb. rewrite rgb_to_bgr_arith.
  destruct (rgb24_bytes r g b Hr Hg Hb) as (-> & -> & ->). reflexivity.
Qed.

Lemma rgb_to_bgr_involutive x :
  0 <= x < 2 ^ 24 -> rgb_to_bgr (rgb_to_bgr x) = x.
Proof.
  intros Hx.
  pose proof (Z.mod_pos_bound x 256 ltac:(lia)) as Hb.
  pose proof (Z.mod_pos_bound (x / 256) 256 ltac:(lia)) as Hg.
  assert (Hr : 0 <= x / 65536 < 256).
  { split; [apply Z.div_pos; lia | apply Z.div_lt_upper_bound; lia]. }
  rewrite (rgb_to_bgr_arith x).
  rewrite (Z.mod_small (x / 65536) 256) by exact Hr.
  rewrite rgb_to_bgr_swap by assumption.
  unfold rgb24.
  pose proof (Z.div_mod x 256 ltac:(lia)) as E1.
  pose proof (Z.div_mod (x / 256) 256 ltac:(lia)) as E2.
  assert (E3 : x / 256 / 256 = x / 65536).
  { rewrite Z.div_div by lia. reflexivity. }
  lia.
Qed.

(* ------------------------------------------------------------------------- *)
(** ** [RenderText] and [Update], step by step *)

Lemma pop_back_push_back str c : pop_back (push_back str c) = str.
Proof. unfold pop_back, push_back. apply removelast_last. Qed.

Lemma set_text_same s x : set_text (set_text s x) (text s) = s.
Proof. destruct s; reflexivity. Qed.

(** The glyph block either goes through the null font pointer or leaves the
    state as it found it. *)
Lemma glyph_ops_cases s box format :
  (null_font_use s = true /\ glyph_ops s box format = None)
  \/ (null_font_use s = false
      /\ exists ops, glyph_ops s box format = Some (s, ops)).
Proof.
  unfold glyph_ops, null_font_use.
  destruct (wstring_empty (text s)) eqn:Hempty; cbn [negb andb].
  - right. split; [reflexivity|]. eexists. reflexivity.
  - cbn [use_outline font text set_text].
    destruct (use_outline s); cbn [andb].
    + destruct (font s).
      * right. split; [reflexivity|]. eexists.
        rewrite pop_back_push_back, set_text_same. reflexivity.
      * left. split; reflexivity.
    + right. split; [reflexivity|]. eexists.
      rewrite pop_back_push_back, set_text_same. reflexivity.
Qed.

(** [RenderText] returns exactly when the null font pointer is not used, and
    then it is the texture step on the canvas it computed. *)
Lemma RenderText_returns P s :
  null_font_use s = false ->
  exists bits,
    RenderText P s = Some (sync_texture P s (RenderText_canvas P s) bits)
    /\ bitmap_width bits = SIZE.cx (RenderText_canvas P s)
    /\ bitmap_height bits = SIZE.cy (RenderText_canvas P s).
Proof.
  intros Hsafe. unfold RenderText, RenderText_canvas.
  destruct (CalculateTextSizes P s _ RectF.zero) as [box size].
  destruct (glyph_ops_cases s box
              (GetStringFormat s StringFormat.GenericTypographic))
    as [[Hbad _]|[_ [ops Hops]]]; [congruence|].
  rewrite Hops. eexists. split; [reflexivity|]. split; reflexivity.
Qed.

Lemma RenderText_fails P s :
  null_font_use s = true -> RenderText P s = None.
Proof.
  intros Hbad. unfold RenderText.
  destruct (CalculateTextSizes P s _ RectF.zero) as [box size].
  destruct (glyph_ops_cases s box
              (GetStringFormat s StringFormat.GenericTypographic))
    as [[_ Hnone]|[Hsafe _]]; [|congruence].
  rewrite Hnone. reflexivity.
Qed.

Lemma RenderText_inv P s s' events :
  RenderText P s = Some (s', events) ->
  null_font_use s = false
  /\ exists bits,
       (s', events) = sync_texture P s (RenderText_canvas P s) bits
       /\ bitmap_width bits = SIZE.cx (RenderText_canvas P s)
       /\ bitmap_height bits = SIZE.cy (RenderText_canvas P s).
Proof.
  intros Hrun.
  destruct (null_font_use s) eqn:Huse.
  - rewrite RenderText_fails in Hrun by assumption. discriminate.
  - split; [reflexivity|].
    destruct (RenderText_returns P s Huse) as (bits & Heq & Hw & Hh).
    exists bits. split; [congruence|]. split; assumption.
Qed.

(** The canvas is a pair of small positive numbers, whatever the state. *)
Lemma RenderText_canvas_bounds P s :
  32 <= SIZE.cx (RenderText_canvas P s) <= 8192
  /\ 32 <= SIZE.cy (RenderText_canvas P s) <= 8192.
Proof.
  unfold RenderText_canvas. rewrite CalculateTextSizes_size.
  destruct (quantize_bounds
              (apply_extents s
                 (snd (measured_size P s
                         (measure_text P s
                            (GetStringFormat s StringFormat.GenericTypographic)
                            RectF.zero))))) as [[_ Hx] [_ Hy]].
  split; assumption.
Qed.

(** The texture step touches the texture and the stored size only. *)
Lemma sync_texture_frame P s size bits :
  exists tx w h, fst (sync_texture P s size bits) = set_size (set_tex s tx) w h.
Proof.
  unfold sync_texture.
  destruct (_ || _ || _).
  - eexists _, _, _. reflexivity.
  - exists (tex s), (cx s), (cy s).
    destruct (tex s) eqn:Htex; cbn [fst]; destruct s; cbn in *; subst; reflexivity.
Qed.

Lemma RenderText_frame P s s' events :
  RenderText P s = Some (s', events) ->
  exists tx w h, s' = set_size (set_tex s tx) w h.
Proof.
  intros Hrun. apply RenderText_inv in Hrun as (_ & bits & Heq & _).
  destruct (sync_texture_frame P s (RenderText_canvas P s) bits)
    as (tx & w & h & Hframe).
  rewrite <- Heq in Hframe. eauto.
Qed.

Lemma UpdateFont_frame P s :
  exists h f, UpdateFont P s = set_font s h f.
Proof.
  unfold UpdateFont.
  destruct (match (if negb (wstring_empty (face s)) then _ else None) with
            | Some h => Some h
            | None => _
            end); eauto.
Qed.

(** An update changes the texture, the stored size and the font, and the
    fields the settings give. *)
Lemma Update_frame P settings s s' events :
  Update P settings s = Some (s', events) ->
  exists hf f tx w h,
    s' = set_size (set_tex (set_font (apply_settings P settings s) hf f) tx) w h.
Proof.
  unfold Update. intros Hrun.
  destruct (UpdateFont_frame P (apply_settings P settings s)) as (hf & f & Hf).
  rewrite Hf in Hrun.
  apply RenderText_frame in Hrun as (tx & w & h & ->). eauto 6.
Qed.

Lemma Update_returns P settings s :
  null_font_use (Update_state P settings s) = false ->
  exists s' events, Update P settings s = Some (s', events).
Proof.
  intros Hsafe. unfold Update. fold (Update_state P settings s).
  destruct (RenderText_returns P _ Hsafe) as (bits & Heq & _).
  rewrite Heq. destruct (sync_texture _ _ _ _). eauto.
Qed.

Lemma Update_fails P settings s :
  null_font_use (Update_state P settings s) = true ->
  Update P settings s = None.
Proof. intros Hbad. apply RenderText_fails, Hbad. Qed.

(** A [uint32_t] that reads as a non-negative [LONG] is that value. *)
Lemma to_LONG_nonneg_inv z : is_uint32 z -> 0 <= to_LONG z -> to_LONG z = z.
Proof.
  unfold is_uint32. intros Hz Hpos.
  destruct (Z_lt_dec z (2 ^ 31)) as [Hlt|Hge].
  - apply to_LONG_uint32_small. lia.
  - exfalso. unfold to_LONG in Hpos.
    replace (z + 2 ^ 31) with (z - 2 ^ 31 + 1 * 2 ^ 32) in Hpos by lia.
    rewrite Z.mod_add in Hpos by lia.
    rewrite Z.mod_small in Hpos by lia. lia.
Qed.

(** The texture step, when the texture is kept. *)
Lemma sync_texture_reuse P s size bits cur :
  tex s = Some cur ->
  to_LONG (cx s) = SIZE.cx size -> to_LONG (cy s) = SIZE.cy size ->
  sync_texture P s size bits
  = (s, [obs_enter_graphics;
         gs_texture_set_image cur bits (to_uint32 (SIZE.cx size * 4));
         obs_leave_graphics]).
Proof.
  intros Htex Hx Hy. unfold sync_texture.
  rewrite Htex, Hx, Hy, !Z.eqb_refl. reflexivity.
Qed.

(** The texture step, when the texture is replaced. *)
Lemma sync_texture_recreate P s size bits :
  tex s = None \/ to_LONG (cx s) <> SIZE.cx size
  \/ to_LONG (cy s) <> SIZE.cy size ->
  let w := to_uint32 (SIZE.cx size) in
  let h := to_uint32 (SIZE.cy size) in
  let created := gs_texture_create_result P w h bits in
  sync_texture P s size bits
  = (set_size (set_tex s created) w h,
     [obs_enter_graphics] ++ destroy_of (tex s)
       ++ [gs_texture_create w h bits created; obs_leave_graphics]).
Proof.
  intros Hcase w h created. unfold sync_texture.
  assert (Hcond : match tex s with None => true | Some _ => false end
                  || negb (to_LONG (cx s) =? SIZE.cx size)
                  || negb (to_LONG (cy s) =? SIZE.cy size) = true).
  { destruct Hcase as [Hnone|[Hx|Hy]].
    - rewrite Hnone. reflexivity.
    - apply Z.eqb_neq in Hx. rewrite Hx.
      destruct (tex s); reflexivity.
    - apply Z.eqb_neq in Hy. rewrite Hy.
      destruct (tex s); destruct (to_LONG (cx s) =? SIZE.cx size); reflexivity. }
  rewrite Hcond. reflexivity.
Qed.

(** After the texture step the stored size is the canvas. *)
Lemma sync_texture_size P s size bits :
  is_uint32 (cx s) -> is_uint32 (cy s) ->
  0 <= SIZE.cx size < 2 ^ 31 -> 0 <= SIZE.cy size < 2 ^ 31 ->
  cx (fst (sync_texture P s size bits)) = SIZE.cx size
  /\ cy (fst (sync_texture P s size bits)) = SIZE.cy size.
Proof.
  intros Hcx Hcy Hsx Hsy. unfold sync_texture.
  destruct (match tex s with None => true | Some _ => false end) eqn:Htex;
    cbn [orb].
  - cbn [fst cx cy set_size].
    rewrite !to_uint32_small by (unfold is_uint32; lia). split; reflexivity.
  - destruct (Z.eqb_spec (to_LONG (cx s)) (SIZE.cx size)) as [Hx|Hx];
      cbn [negb orb].
    + destruct (Z.eqb_spec (to_LONG (cy s)) (SIZE.cy size)) as [Hy|Hy];
        cbn [negb].
      * destruct (tex s); [|discriminate]. cbn [fst].
        rewrite <- Hx, <- Hy.
        rewrite !to_LONG_nonneg_inv by (assumption || lia).
        split; reflexivity.
      * cbn [fst cx cy set_size].
        rewrite !to_uint32_small by (unfold is_uint32; lia). split; reflexivity.
    + cbn [fst cx cy set_size].
      rewrite !to_uint32_small by (unfold is_uint32; lia). split; reflexivity.
Qed.

Lemma RenderText_size P s s' events :
  is_uint32 (cx s) -> is_uint32 (cy s) ->
  RenderText P s = Some (s', events) ->
  cx s' = SIZE.cx (RenderText_canvas P s)
  /\ cy s' = SIZE.cy (RenderText_canvas P s).
Proof.
  intros Hcx Hcy Hrun.
  apply RenderText_inv in Hrun as (_ & bits & Heq & _).
  destruct (RenderText_canvas_bounds P s) as [Hx Hy].
  replace s' with (fst (sync_texture P s (RenderText_canvas P s) bits))
    by (rewrite <- Heq; reflexivity).
  apply sync_texture_size; assumption || lia.
Qed.

Lemma well_typed_init : well_typed TextSource.init.
Proof. split; unfold is_uint32; cbn; lia. Qed.

Lemma Update_size P settings s s' events :
  well_typed s ->
  Update P settings s = Some (s', events) ->
  cx s' = SIZE.cx (Update_canvas P settings s)
  /\ cy s' = SIZE.cy (Update_canvas P settings s).
Proof.
  intros [Hcx Hcy _ _] Hrun. unfold Update in Hrun.
  unfold Update_canvas, Update_state.
  destruct (UpdateFont_frame P (apply_settings P settings s)) as (hf & f & Hf).
  apply RenderText_size in Hrun; [exact Hrun | |]; rewrite Hf; assumption.
Qed.

Lemma Update_well_typed P settings s s' events :
  well_typed s ->
  Update P settings s = Some (s', events) ->
  well_typed s'.
Proof.
  intros Hwt Hrun.
  destruct (Update_size P settings s s' events Hwt Hrun) as [Hx Hy].
  destruct (RenderText_canvas_bounds P (Update_state P settings s)) as [Bx By].
  fold (Update_canvas P settings s) in Bx, By.
  destruct Hwt as [_ _ Hex Hey].
  apply Update_frame in Hrun as (hf & f & tx & w & h & Hs').
  split.
  - rewrite Hx. unfold is_uint32. lia.
  - rewrite Hy. unfold is_uint32. lia.
  - rewrite Hs'. exact Hex.
  - rewrite Hs'. exact Hey.
Qed.

Lemma reachable_well_typed s : reachable s -> well_typed s.
Proof.
  induction 1 as [|P settings s s' events _ IH Hrun].
  - apply well_typed_init.
  - eapply Update_well_typed; eassumption.
Qed.

(* ------------------------------------------------------------------------- *)
(** ** The settings *)

Lemma obs_data_item_insert_ne (m : gmap string obs_value) k v name :
  k <> name ->
  obs_data_item (Some (<[k:=v]> m)) name = obs_data_item (Some m) name.
Proof. intros Hne. unfold obs_data_item. apply lookup_insert_ne, Hne. Qed.


(** The text an update stores is the content it was given: the newline
    that is pushed is popped again. *)
Lemma apply_settings_text P settings s :
  text (apply_settings P settings s) = supplied_content P settings.
Proof.
  unfold apply_settings, supplied_content. cbn [text].
  destruct (obs_data_get_bool (Some settings) S_USE_FILE);
    match goal with
    | |- (if negb (wstring_empty ?c) then _ else _) = _ =>
        destruct (wstring_empty c); cbn [negb];
          [reflexivity | apply pop_back_push_back]
    end.
Qed.

(** A key that [Update] does not ask for has no influence on it. *)
Lemma apply_settings_unread_key P settings s k v :
  ~ In k read_keys ->
  apply_settings P (<[k:=v]> settings) s = apply_settings P settings s.
Proof.
  intros Hk.
  assert (Hne : forall name, In name read_keys -> k <> name).
  { intros name Hin ->. exact (Hk Hin). }
  unfold apply_settings, obs_data_get_uint32, obs_data_get_string,
    obs_data_get_int, obs_data_get_bool, obs_data_get_obj.
  rewrite !obs_data_item_insert_ne
    by (apply Hne; unfold read_keys; cbn [In]; tauto).
  reflexivity.
Qed.

Lemma string_compare_refl a : String.compare a a = Eq.
Proof.
  pose proof (String.compare_antisym a a) as Hanti.
  destruct (String.compare a a); [reflexivity | discriminate | discriminate].
Qed.

Lemma strcmp_zero a b : strcmp a b = 0 <-> a = b.
Proof.
  unfold strcmp. split.
  - destruct (String.compare a b) eqn:Hc; try discriminate.
    intros _. apply String.compare_eq_iff, Hc.
  - intros ->. rewrite string_compare_refl. reflexivity.
Qed.

Lemma strcmp_differs a b : a <> b -> (strcmp a b =? 0) = false.
Proof.
  intros Hne. apply Z.eqb_neq. intros Hz. apply Hne, strcmp_zero, Hz.
Qed.

(** The font depends on the face, the size and the four style flags. *)
Lemma UpdateFont_font_congr P s1 s2 :
  face s1 = face s2 -> face_size s1 = face_size s2 ->
  bold s1 = bold s2 -> italic s1 = italic s2 ->
  underline s1 = underline s2 -> strikeout s1 = strikeout s2 ->
  font (UpdateFont P s1) = font (UpdateFont P s2).
Proof.
  intros Hface Hsize Hb Hi Hu Hs. unfold UpdateFont.
  rewrite Hface, Hsize, Hb, Hi, Hu, Hs.
  destruct (match (if negb (wstring_empty (face s2)) then _ else None) with
            | Some h => Some h
            | None => _
            end); reflexivity.
Qed.

Lemma null_font_use_UpdateFont P s :
  null_font_use (UpdateFont P s)
  = negb (wstring_empty (text s)) && use_outline s
    && match font (UpdateFont P s) with None => true | Some _ => false end.
Proof.
  unfold null_font_use.
  destruct (UpdateFont_frame P s) as (h & f & ->). reflexivity.
Qed.

(** The alignment strings have no part in the text, the outline flag or the
    font of an update. *)
Lemma apply_settings_alignment_key P settings s k v :
  k = S_ALIGN \/ k = S_VALIGN ->
  null_font_use (Update_state P (<[k:=v]> settings) s)
  = null_font_use (Update_state P settings s).
Proof.
  intros Hk. unfold Update_state. rewrite !null_font_use_UpdateFont.
  assert (Hfields :
    text (apply_settings P (<[k:=v]> settings) s)
      = text (apply_settings P settings s)
    /\ use_outline (apply_settings P (<[k:=v]> settings) s)
       = use_outline (apply_settings P settings s)
    /\ face (apply_settings P (<[k:=v]> settings) s)
       = face (apply_settings P settings s)
    /\ face_size (apply_settings P (<[k:=v]> settings) s)
       = face_size (apply_settings P settings s)
    /\ bold (apply_settings P (<[k:=v]> settings) s)
       = bold (apply_settings P settings s)
    /\ italic (apply_settings P (<[k:=v]> settings) s)
       = italic (apply_settings P settings s)
    /\ underline (apply_settings P (<[k:=v]> settings) s)
       = underline (apply_settings P settings s)
    /\ strikeout (apply_settings P (<[k:=v]> settings) s)
       = strikeout (apply_settings P settings s)).
  { unfold apply_settings, obs_data_get_uint32, obs_data_get_string,
      obs_data_get_int, obs_data_get_bool, obs_data_get_obj.
    cbn [text use_outline face face_size bold italic underline strikeout].
    destruct Hk as [-> | ->];
      rewrite !obs_data_item_insert_ne by discriminate;
      repeat split; reflexivity. }
  destruct Hfields as (Ht & Ho & Hf & Hsz & Hb & Hi & Hu & Hs).
  rewrite Ht, Ho.
  rewrite (UpdateFont_font_congr P _ _ Hf Hsz Hb Hi Hu Hs). reflexivity.
Qed.

Lemma Update_defined_iff P settings s :
  is_Some (Update P settings s)
  <-> null_font_use (Update_state P settings s) = false.
Proof.
  split.
  - intros [[s' events] Hrun].
    destruct (null_font_use (Update_state P settings s)) eqn:Huse;
      [|reflexivity].
    rewrite Update_fails in Hrun by assumption. discriminate.
  - intros Hsafe. destruct (Update_returns P settings s Hsafe) as (s' & ev & ->).
    eexists. reflexivity.
Qed.

(** C2, as stated, fails: typed text that ends with one newline is stored
    with its newline. *)
Lemma trailing_newline_not_stripped :
  let settings := sample_settings a_newline 22 in
  let content := supplied_content sample_platform settings in
  content = [97; 10]
  /\ ends_with_newline content
  /\ strip_trailing_newline content = [97]
  /\ exists s' events,
       Update sample_platform settings TextSource.init = Some (s', events)
       /\ text s' = [97; 10]
       /\ text s' <> strip_trailing_newline content.
Proof.
  split; [vm_compute; reflexivity|].
  split; [exists [97]; vm_compute; reflexivity|].
  split; [vm_compute; reflexivity|].
  eexists _, _. split; [vm_compute; reflexivity|].
  split; [reflexivity | vm_compute; discriminate].
Qed.

(** C2, amended. After a configuration update the stored text is the
    supplied content (the typed text, or the file's contents) unchanged,
    whether or not it ends with a newline. *)
Theorem stored_text_is_content P settings s s' events :
  Update P settings s = Some (s', events) ->
  text s' = supplied_content P settings.
Proof.
  intros Hrun.
  apply Update_frame in Hrun as (hf & f & tx & w & h & ->).
  cbn [text set_size set_tex set_font]. apply apply_settings_text.
Qed.

Lemma stored_text_is_content_witness :
  exists s' events,
    Update sample_platform (sample_settings a_newline 22) TextSource.init
    = Some (s', events)
    /\ text s' = [97; 10].
Proof.
  eexists _, _. split; [vm_compute; reflexivity|].
  match goal with
  | |- text ?s' = _ =>
      rewrite (stored_text_is_content sample_platform
                 (sample_settings a_newline 22) TextSource.init s' _
                 ltac:(vm_compute; reflexivity))
  end.
  vm_compute. reflexivity.
Defined.

(** C5. [rgb_to_bgr] maps 0xRRGGBB to 0xBBGGRR; applied twice to a 24-bit
    value it gives the value back; and an update stores the fill colour and
    the outline colour of the settings with the permutation applied once. *)
Theorem colours_swapped_once P settings s s' events r g b x :
  0 <= r < 256 -> 0 <= g < 256 -> 0 <= b < 256 ->
  0 <= x < 2 ^ 24 ->
  Update P settings s = Some (s', events) ->
  rgb_to_bgr (rgb24 r g b) = rgb24 b g r
  /\ rgb_to_bgr (rgb_to_bgr x) = x
  /\ color s' = rgb_to_bgr (obs_data_get_uint32 (Some settings) S_COLOR)
  /\ outline_color s'
     = rgb_to_bgr (obs_data_get_uint32 (Some settings) S_OUTLINE_COLOR).
Proof.
  intros Hr Hg Hb Hx Hrun.
  split; [apply rgb_to_bgr_swap; assumption|].
  split; [apply rgb_to_bgr_involutive; assumption|].
  apply Update_frame in Hrun as (hf & f & tx & w & h & ->).
  split; reflexivity.
Qed.

(** The sample settings ask for 0x112233: 0x332211 is stored. *)
Lemma colours_swapped_once_witness :
  rgb_to_bgr (rgb24 0x11 0x22 0x33) = rgb24 0x33 0x22 0x11
  /\ rgb_to_bgr (rgb_to_bgr 0x112233) = 0x112233
  /\ exists s' events,
       Update sample_platform (sample_settings "Hi" 22) TextSource.init
       = Some (s', events)
       /\ color s' = 0x332211 /\ outline_color s' = 0.
Proof.
  assert (Hrun : exists s' events,
            Update sample_platform (sample_settings "Hi" 22) TextSource.init
            = Some (s', events))
    by (eexists _, _; vm_compute; reflexivity).
  destruct Hrun as (s' & events & Hrun).
  destruct (colours_swapped_once sample_platform (sample_settings "Hi" 22)
              TextSource.init s' events 0x11 0x22 0x33 0x112233)
    as (Hswap & Hinv & Hc & Ho); try lia; [exact Hrun|].
  split; [exact Hswap|]. split; [exact Hinv|].
  exists s', events. split; [exact Hrun|].
  rewrite Hc, Ho. split; vm_compute; reflexivity.
Defined.

Lemma Update_unread_key P settings s k v :
  ~ In k read_keys ->
  Update P (<[k:=v]> settings) s = Update P settings s.
Proof.
  intros Hk. unfold Update.
  rewrite apply_settings_unread_key by exact Hk. reflexivity.
Qed.

(** C8. An alignment string other than "center" and "right" gives [Left],
    and a vertical-alignment string other than "center" and "bottom" gives
    [Top], in the state the update leaves. No string is an error: whether
    the update returns does not depend on either string. *)
Theorem unknown_alignment_defaults P settings s :
  let align_str := obs_data_get_string (Some settings) S_ALIGN in
  let valign_str := obs_data_get_string (Some settings) S_VALIGN in
  (align_str <> "center" -> align_str <> "right" ->
   align (apply_settings P settings s) = Align.Left
   /\ forall s' events,
        Update P settings s = Some (s', events) -> align s' = Align.Left)
  /\ (valign_str <> "center" -> valign_str <> "bottom" ->
      valign (apply_settings P settings s) = VAlign.Top
      /\ forall s' events,
           Update P settings s = Some (s', events) -> valign s' = VAlign.Top)
  /\ (forall a v,
        is_Some (Update P (<[S_ALIGN:=a]> (<[S_VALIGN:=v]> settings)) s)
        <-> is_Some (Update P settings s)).
Proof.
  intros align_str valign_str. split; [|split].
  - intros Hc Hr.
    assert (Hleft : align (apply_settings P settings s) = Align.Left).
    { unfold apply_settings. cbn [align]. fold align_str.
      unfold S_ALIGN_CENTER, S_ALIGN_RIGHT.
      rewrite !strcmp_differs by assumption. reflexivity. }
    split; [exact Hleft|].
    intros s' events Hrun.
    apply Update_frame in Hrun as (hf & f & tx & w & h & ->). exact Hleft.
  - intros Hc Hb.
    assert (Htop : valign (apply_settings P settings s) = VAlign.Top).
    { unfold apply_settings. cbn [valign]. fold valign_str.
      unfold S_VALIGN_CENTER, S_ALIGN_CENTER, S_VALIGN_BOTTOM.
      rewrite !strcmp_differs by assumption. reflexivity. }
    split; [exact Htop|].
    intros s' events Hrun.
    apply Update_frame in Hrun as (hf & f & tx & w & h & ->). exact Htop.
  - intros a v. rewrite !Update_defined_iff.
    rewrite !apply_settings_alignment_key by tauto. reflexivity.
Qed.

(** The sample settings ask for "middle" and "baseline". *)
Lemma unknown_alignment_defaults_witness :
  exists s' events,
    Update sample_platform (sample_settings "Hi" 22) TextSource.init
    = Some (s', events)
    /\ align s' = Align.Left /\ valign s' = VAlign.Top.
Proof.
  destruct (unknown_alignment_defaults sample_platform
              (sample_settings "Hi" 22) TextSource.init) as (Ha & Hv & _).
  eexists _, _. split; [vm_compute; reflexivity|].
  split.
  - eapply Ha; [vm_compute; discriminate | vm_compute; discriminate
               | vm_compute; reflexivity].
  - eapply Hv; [vm_compute; discriminate | vm_compute; discriminate
               | vm_compute; reflexivity].
Defined.

(* ------------------------------------------------------------------------- *)
(** ** Extents and the configuration interface *)

Lemma Update_keeps_extents P settings s s' events :
  Update P settings s = Some (s', events) ->
  use_extents s' = use_extents s /\ wrap s' = wrap s
  /\ extents_cx s' = extents_cx s /\ extents_cy s' = extents_cy s.
Proof.
  intros Hrun.
  apply Update_frame in Hrun as (hf & f & tx & w & h & ->).
  repeat split; reflexivity.
Qed.

(** C9. In every state reached by construction and updates, extents-mode
    and wrap are off and both extents are 0. An update keeps the four
    fields, and no key outside the ones it asks for changes what it does;
    so the extents step leaves every measured size as it is and the canvas
    is the measured size, even-rounded and clamped. *)
Theorem extents_never_configured s :
  reachable s ->
  (use_extents s = false /\ wrap s = false
   /\ extents_cx s = 0 /\ extents_cy s = 0)
  /\ (forall P settings k v,
        ~ In k read_keys ->
        Update P (<[k:=v]> settings) s = Update P settings s)
  /\ (forall sz, apply_extents s sz = sz)
  /\ (forall P format bb,
        snd (CalculateTextSizes P s format bb)
        = quantize (snd (measured_size P s (measure_text P s format bb)))).
Proof.
  intros Hreach.
  assert (Hoff : use_extents s = false /\ wrap s = false
                 /\ extents_cx s = 0 /\ extents_cy s = 0).
  { induction Hreach as [|P settings s s' events _ IH Hrun].
    - repeat split; reflexivity.
    - destruct (Update_keeps_extents _ _ _ _ _ Hrun) as (-> & -> & -> & ->).
      exact IH. }
  assert (Hid : forall sz, apply_extents s sz = sz).
  { intros sz. unfold apply_extents.
    destruct Hoff as (-> & _). reflexivity. }
  split; [exact Hoff|]. split; [|split].
  - intros P settings k v Hk. apply Update_unread_key, Hk.
  - exact Hid.
  - intros P format bb. rewrite CalculateTextSizes_size, Hid. reflexivity.
Qed.

Lemma extents_never_configured_witness :
  exists s events,
    Update sample_platform (sample_settings "Hi" 22) TextSource.init
    = Some (s, events)
    /\ use_extents s = false /\ wrap s = false
    /\ extents_cx s = 0 /\ extents_cy s = 0.
Proof.
  eexists _, _. split; [vm_compute; reflexivity|].
  refine (proj1 (extents_never_configured _ _)).
  eapply (reach_update sample_platform (sample_settings "Hi" 22)
            TextSource.init); [apply reach_init | vm_compute; reflexivity].
Defined.

(* ------------------------------------------------------------------------- *)
(** ** The texture *)

(** Inside an update, [RenderText] finds the texture and the stored size of
    the state before the update. *)
Lemma Update_state_texture P settings s :
  tex (Update_state P settings s) = tex s
  /\ cx (Update_state P settings s) = cx s
  /\ cy (Update_state P settings s) = cy s.
Proof.
  unfold Update_state.
  destruct (UpdateFont_frame P (apply_settings P settings s)) as (h & f & ->).
  repeat split; reflexivity.
Qed.

Lemma Update_state_well_typed P settings s :
  well_typed s -> well_typed (Update_state P settings s).
Proof.
  intros [Hx Hy Hex Hey]. unfold Update_state.
  destruct (UpdateFont_frame P (apply_settings P settings s)) as (h & f & ->).
  split; assumption.
Qed.

Lemma SIZE_eta sz : SIZE.mk (SIZE.cx sz) (SIZE.cy sz) = sz.
Proof. destruct sz; reflexivity. Qed.

Lemma SIZE_differs a b :
  a <> b -> SIZE.cx a <> SIZE.cx b \/ SIZE.cy a <> SIZE.cy b.
Proof.
  intros Hne.
  destruct (Z.eq_dec (SIZE.cx a) (SIZE.cx b)) as [Hx|Hx]; [|left; exact Hx].
  destruct (Z.eq_dec (SIZE.cy a) (SIZE.cy b)) as [Hy|Hy]; [|right; exact Hy].
  exfalso. apply Hne. rewrite <- (SIZE_eta a), <- (SIZE_eta b), Hx, Hy.
  reflexivity.
Qed.

Lemma Update_inv P settings s s' events :
  Update P settings s = Some (s', events) ->
  exists bits,
    (s', events)
    = sync_texture P (Update_state P settings s) (Update_canvas P settings s)
        bits
    /\ bitmap_width bits = SIZE.cx (Update_canvas P settings s)
    /\ bitmap_height bits = SIZE.cy (Update_canvas P settings s).
Proof.
  unfold Update. intros Hrun.
  apply RenderText_inv in Hrun as (_ & bits & Heq & Hw & Hh).
  exists bits. split; [exact Heq|]. split; assumption.
Qed.

(** C7. Take two successive updates. The size stored by the first is the
    canvas it computed. If a texture exists and the second computes the
    same canvas, the second keeps the handle, destroys and creates nothing,
    and only sets the image of that texture. If no texture exists or the
    canvas differs, the second destroys the old texture, if any, and after
    that creates one of the new size, which becomes the texture. *)
Theorem texture_reused_or_recreated P1 P2 st1 st2 s0 s1 ev1 s2 ev2 :
  well_typed s0 ->
  Update P1 st1 s0 = Some (s1, ev1) ->
  Update P2 st2 s1 = Some (s2, ev2) ->
  let size := Update_canvas P2 st2 s1 in
  SIZE.mk (cx s1) (cy s1) = Update_canvas P1 st1 s0
  /\ (forall cur,
        tex s1 = Some cur -> size = Update_canvas P1 st1 s0 ->
        tex s2 = Some cur
        /\ existsb is_destroy ev2 = false /\ existsb is_create ev2 = false
        /\ exists bits,
             ev2 = [obs_enter_graphics;
                    gs_texture_set_image cur bits (SIZE.cx size * 4);
                    obs_leave_graphics]
             /\ bitmap_width bits = SIZE.cx size
             /\ bitmap_height bits = SIZE.cy size)
  /\ (tex s1 = None \/ size <> Update_canvas P1 st1 s0 ->
      exists bits,
        let created :=
          gs_texture_create_result P2 (SIZE.cx size) (SIZE.cy size) bits in
        ev2 = [obs_enter_graphics] ++ destroy_of (tex s1)
                ++ [gs_texture_create (SIZE.cx size) (SIZE.cy size) bits
                      created;
                    obs_leave_graphics]
        /\ tex s2 = created
        /\ cx s2 = SIZE.cx size /\ cy s2 = SIZE.cy size).
Proof.
  intros Hwt Hrun1 Hrun2 size.
  destruct (Update_size _ _ _ _ _ Hwt Hrun1) as [Hx1 Hy1].
  assert (Hstored : SIZE.mk (cx s1) (cy s1) = Update_canvas P1 st1 s0).
  { rewrite Hx1, Hy1. apply SIZE_eta. }
  destruct (RenderText_canvas_bounds P1 (Update_state P1 st1 s0)) as [B1x B1y].
  fold (Update_canvas P1 st1 s0) in B1x, B1y.
  destruct (RenderText_canvas_bounds P2 (Update_state P2 st2 s1)) as [B2x B2y].
  fold (Update_canvas P2 st2 s1) in B2x, B2y. fold size in B2x, B2y.
  destruct (Update_state_texture P2 st2 s1) as (Htex & Hcx & Hcy).
  apply Update_inv in Hrun2 as (bits & Hsync & Hw & Hh). fold size in Hsync, Hw, Hh.
  split; [exact Hstored|]. split.
  - intros cur Hcur Hsame.
    rewrite (sync_texture_reuse P2 _ size bits cur) in Hsync.
    + injection Hsync as -> ->.
      rewrite to_uint32_small by (unfold is_uint32; lia).
      split; [rewrite Htex; exact Hcur|].
      split; [reflexivity|]. split; [reflexivity|].
      exists bits. split; [reflexivity|]. split; assumption.
    + rewrite Htex. exact Hcur.
    + rewrite Hcx, Hx1, Hsame. apply to_LONG_uint32_small. lia.
    + rewrite Hcy, Hy1, Hsame. apply to_LONG_uint32_small. lia.
  - intros Hcase.
    rewrite sync_texture_recreate in Hsync.
    + injection Hsync as -> ->.
      rewrite !to_uint32_small by (unfold is_uint32; lia).
      exists bits. cbv zeta. rewrite Htex.
      split; [reflexivity|]. split; [reflexivity|]. split; reflexivity.
    + rewrite Htex, Hcx, Hcy, Hx1, Hy1.
      rewrite !to_LONG_uint32_small by lia.
      destruct Hcase as [Hnone|Hdiff]; [left; exact Hnone|right].
      destruct (SIZE_differs _ _ Hdiff) as [Hd|Hd]; [left|right];
        intros Heq; apply Hd; symmetry; exact Heq.
Qed.

(** Two updates of 32 by 32 pixels set the image of the one texture; a
    third, of 96 by 42, destroys it and then creates another. *)
Lemma texture_reused_or_recreated_witness :
  exists s1 ev1 s2 ev2 s3 ev3,
    Update sample_platform (sample_settings "Hi" 22) TextSource.init
    = Some (s1, ev1)
    /\ Update sample_platform (sample_settings "Ho" 22) s1 = Some (s2, ev2)
    /\ Update sample_platform (sample_settings "Hello, world" 41) s2
       = Some (s3, ev3)
    /\ tex s2 = tex s1
    /\ existsb is_destroy ev2 = false /\ existsb is_create ev2 = false
    /\ exists bits,
         ev3 = [obs_enter_graphics; gs_texture_destroy (32 * 65536 + 32);
                gs_texture_create 96 42 bits (Some (96 * 65536 + 42));
                obs_leave_graphics]
         /\ tex s3 = Some (96 * 65536 + 42).
Proof.
  eexists _, _, _, _, _, _.
  split; [vm_compute; reflexivity|].
  split; [vm_compute; reflexivity|].
  split; [vm_compute; reflexivity|].
  match goal with
  | |- tex ?s2 = tex ?s1 /\ existsb _ ?ev2 = _ /\ _ /\ exists bits, ?ev3 = _ /\ tex ?s3 = _ =>
      pose proof (texture_reused_or_recreated sample_platform sample_platform
                    (sample_settings "Hi" 22) (sample_settings "Ho" 22)
                    TextSource.init s1 _ s2 ev2 well_typed_init
                    ltac:(vm_compute; reflexivity)
                    ltac:(vm_compute; reflexivity)) as (_ & Hreuse & _);
      pose proof (texture_reused_or_recreated sample_platform sample_platform
                    (sample_settings "Ho" 22)
                    (sample_settings "Hello, world" 41)
                    s1 s2 ev2 s3 ev3
                    ltac:(split; vm_compute; split; congruence)
                    ltac:(vm_compute; reflexivity)
                    ltac:(vm_compute; reflexivity)) as (_ & _ & Hrecreate)
  end.
  destruct (Hreuse (32 * 65536 + 32)) as (Ht & Hd & Hc & _);
    [vm_compute; reflexivity | vm_compute; reflexivity |].
  split; [rewrite Ht; vm_compute; reflexivity|].
  split; [exact Hd|]. split; [exact Hc|].
  destruct Hrecreate as (bits & Hev & Htex & _);
    [right; vm_compute; congruence|].
  exists bits. split.
  - rewrite Hev. vm_compute. reflexivity.
  - rewrite Htex. vm_compute. reflexivity.
Defined.

(** A creation event in the log of the texture step is the one creation of
    that step, and its result is the texture that is kept. *)
Lemma sync_texture_created P s size bits w h data result :
  In (gs_texture_create w h data result) (snd (sync_texture P s size bits)) ->
  tex (fst (sync_texture P s size bits)) = result.
Proof.
  unfold sync_texture.
  destruct (_ || _ || _).
  - cbn [fst snd tex set_size set_tex].
    intros Hin. apply in_app_or in Hin as [Hin|Hin].
    + destruct Hin as [Hin|[]]. discriminate Hin.
    + apply in_app_or in Hin as [Hin|Hin].
      * destruct (tex s); [destruct Hin as [Hin|[]]; discriminate Hin
                          | destruct Hin].
      * destruct Hin as [Hin|[Hin|[]]]; [|discriminate Hin].
        injection Hin as _ _ _ Hres. exact Hres.
  - destruct (tex s); cbn [snd].
    + intros [Hin|[Hin|[Hin|[]]]]; discriminate Hin.
    + intros [].
Qed.

(** C10. When [RenderText] has run, the stored width and height, which
    [get_width] and [get_height] report, are the canvas it computed. That
    holds when the creation of the texture failed, too: then no texture is
    kept and [Render] makes no call, while the size reported is the new
    one. *)
Theorem stored_size_is_canvas P s :
  well_typed s -> null_font_use s = false ->
  exists s' events,
    RenderText P s = Some (s', events)
    /\ get_width s' = SIZE.cx (RenderText_canvas P s)
    /\ get_height s' = SIZE.cy (RenderText_canvas P s)
    /\ (tex s' = None -> Render s' = [])
    /\ (forall w h data,
          In (gs_texture_create w h data None) events ->
          tex s' = None /\ Render s' = []
          /\ get_width s' = SIZE.cx (RenderText_canvas P s)
          /\ get_height s' = SIZE.cy (RenderText_canvas P s)).
Proof.
  intros Hwt Hsafe.
  destruct (RenderText_returns P s Hsafe) as (bits & Hrun & _).
  destruct (sync_texture P s (RenderText_canvas P s) bits) as [s' events] eqn:Hs.
  exists s', events. split; [exact Hrun|].
  destruct Hwt as [Hcx Hcy _ _].
  destruct (RenderText_size P s s' events Hcx Hcy Hrun) as [Hx Hy].
  assert (Hnone : tex s' = None -> Render s' = []).
  { intros Htex. unfold Render. rewrite Htex. reflexivity. }
  split; [exact Hx|]. split; [exact Hy|]. split; [exact Hnone|].
  intros w h data Hin.
  assert (Htex : tex s' = None).
  { pose proof (sync_texture_created P s (RenderText_canvas P s) bits
                  w h data None) as Hcreated.
    rewrite Hs in Hcreated. apply Hcreated, Hin. }
  split; [exact Htex|]. split; [apply Hnone, Htex|]. split; assumption.
Qed.

(** The host fails to create the texture: the size reported is 32 by 32,
    and a frame draws nothing. *)
Lemma stored_size_is_canvas_witness :
  exists s' events,
    RenderText (fixed_pitch true false) (sample_state "Hi" 22)
    = Some (s', events)
    /\ tex s' = None /\ Render s' = []
    /\ get_width s' = 32 /\ get_height s' = 32.
Proof.
  destruct (stored_size_is_canvas (fixed_pitch true false)
              (sample_state "Hi" 22))
    as (s' & events & Hrun & _ & _ & _ & Hfail).
  - apply Update_state_well_typed, well_typed_init.
  - vm_compute. reflexivity.
  - exists s', events. split; [exact Hrun|].
    assert (Hev : exists data, In (gs_texture_create 32 32 data None) events).
    { assert (Hcomputed :
                option_map snd
                  (RenderText (fixed_pitch true false) (sample_state "Hi" 22))
                = Some events) by (rewrite Hrun; reflexivity).
      vm_compute in Hcomputed. injection Hcomputed as <-.
      eexists. right. left. reflexivity. }
    destruct Hev as [data Hin].
    destruct (Hfail 32 32 data Hin) as (Ht & Hr & Hw & Hh).
    split; [exact Ht|]. split; [exact Hr|].
    rewrite Hw, Hh. split; vm_compute; reflexivity.
Defined.

(* ========================================================================= *)
(** * More facts about the file *)

(* ------------------------------------------------------------------------- *)
(** ** Colour helpers *)

(** The alpha word of any opacity is a byte shifted to the top. *)
Lemma get_alpha_val_byte opacity :
  get_alpha_val opacity
  = (to_uint32 (opacity * 255) / 100) mod 256 * 2 ^ 24.
Proof.
  unfold get_alpha_val.
  change (Z.land ?q 0xFF) with (Z.land q (Z.ones 8)).
  rewrite Z.land_ones by lia.
  change (2 ^ 8) with 256.
  pose proof (Z.mod_pos_bound (to_uint32 (opacity * 255) / 100) 256
                ltac:(lia)) as Hb.
  rewrite Z.shiftl_mul_pow2 by lia.
  apply to_uint32_small. unfold is_uint32. lia.
Qed.

Lemma get_alpha_val_in_range opacity :
  0 <= opacity <= 100 -> get_alpha_val opacity = opacity * 255 / 100 * 2 ^ 24.
Proof.
  intros Hop. rewrite get_alpha_val_byte.
  rewrite (to_uint32_small (opacity * 255)) by (unfold is_uint32; lia).
  rewrite Z.mod_small; [reflexivity|].
  split; [apply Z.div_pos; lia | apply Z.div_lt_upper_bound; lia].
Qed.

(** X1. [calc_color] puts the alpha byte of the opacity above the low 24
    bits of the colour, whatever the top byte of the colour was: the result
    is a 32-bit value, its low 24 bits are those of the colour and its top
    byte is the alpha byte. *)
Theorem calc_color_layout color opacity :
  calc_color color opacity
  = (to_uint32 (opacity * 255) / 100) mod 256 * 2 ^ 24 + color mod 2 ^ 24
  /\ is_uint32 (calc_color color opacity)
  /\ calc_color color opacity mod 2 ^ 24 = color mod 2 ^ 24
  /\ calc_color color opacity / 2 ^ 24
     = (to_uint32 (opacity * 255) / 100) mod 256.
Proof.
  pose proof (Z.mod_pos_bound (to_uint32 (opacity * 255) / 100) 256
                ltac:(lia)) as Ha.
  pose proof (Z.mod_pos_bound color (2 ^ 24) ltac:(lia)) as Hc.
  assert (Heq : calc_color color opacity
                = (to_uint32 (opacity * 255) / 100) mod 256 * 2 ^ 24
                  + color mod 2 ^ 24).
  { unfold calc_color. rewrite get_alpha_val_byte.
    change 0xFFFFFF with (Z.ones 24). rewrite Z.land_ones by lia.
    rewrite Z.lor_comm. apply lor_disjoint_add; lia. }
  rewrite Heq. split; [reflexivity|]. split; [unfold is_uint32; lia|]. split.
  - rewrite Z.add_comm, Z.mod_add by lia. apply Z.mod_small, Hc.
  - rewrite Z.add_comm, Z.div_add by lia.
    rewrite Z.div_small by exact Hc. reflexivity.
Qed.

(** X2. On the range of the opacity slider the alpha word grows strictly
    with the opacity, from 0 at opacity 0 to 0xFF000000 at opacity 100: no
    two opacities share an alpha byte. *)
Theorem alpha_strictly_monotone a b :
  0 <= a -> a < b -> b <= 100 ->
  get_alpha_val a < get_alpha_val b
  /\ 0 <= get_alpha_val a
  /\ get_alpha_val b <= 0xFF000000
  /\ get_alpha_val 0 = 0
  /\ get_alpha_val 100 = 0xFF000000.
Proof.
  intros Ha Hab Hb.
  rewrite (get_alpha_val_in_range a), (get_alpha_val_in_range b) by lia.
  assert (Hstep : a * 255 / 100 < b * 255 / 100).
  { apply Z.lt_le_trans with ((a * 255 + 100) / 100).
    - replace (a * 255 + 100) with (a * 255 + 1 * 100) by lia.
      rewrite Z.div_add by lia. lia.
    - apply Z.div_le_mono; lia. }
  assert (Hlow : 0 <= a * 255 / 100) by (apply Z.div_pos; lia).
  assert (Hhigh : b * 255 / 100 <= 255)
    by (apply Z.div_le_upper_bound; lia).
  repeat split; try reflexivity; lia.
Qed.

Lemma alpha_strictly_monotone_witness :
  get_alpha_val 50 < get_alpha_val 51.
Proof.
  destruct (alpha_strictly_monotone 50 51) as (H & _); [lia | lia | lia |].
  exact H.
Defined.

(** X3. On any value, [rgb_to_bgr] gives a 24-bit value and forgets bits
    24 and up: applied twice it gives the low 24 bits of its argument, and
    it cannot tell two values with the same low 24 bits apart. *)
Theorem rgb_to_bgr_drops_top_byte x :
  0 <= rgb_to_bgr x < 2 ^ 24
  /\ rgb_to_bgr (rgb_to_bgr x) = x mod 2 ^ 24
  /\ rgb_to_bgr (x mod 2 ^ 24) = rgb_to_bgr x.
Proof.
  pose proof (Z.mod_pos_bound x 256 ltac:(lia)) as Hb.
  pose proof (Z.mod_pos_bound (x / 256) 256 ltac:(lia)) as Hg.
  pose proof (Z.mod_pos_bound (x / 65536) 256 ltac:(lia)) as Hr.
  pose proof (Z.mod_pos_bound x (2 ^ 24) ltac:(lia)) as Hy.
  assert (Hlow : x mod 2 ^ 24
                 = rgb24 (x / 65536 mod 256) (x / 256 mod 256) (x mod 256)).
  { unfold rgb24. change (2 ^ 24) with 16777216. 
    pose proof (Z.div_mod x 256 ltac:(lia)) as E1.
    pose proof (Z.div_mod (x / 256) 256 ltac:(lia)) as E2.
    pose proof (Z.div_mod (x / 65536) 256 ltac:(lia)) as E3.
    assert (E4 : x / 256 / 256 = x / 65536)
      by (rewrite Z.div_div by lia; reflexivity).
    symmetry. apply (Z.mod_unique _ _ (x / 65536 / 256)); lia. }
  split; [|split].
  - rewrite rgb_to_bgr_arith. unfold rgb24. lia.
  - rewrite (rgb_to_bgr_arith x), rgb_to_bgr_swap by assumption.
    symmetry. exact Hlow.
  - rewrite Hlow, rgb_to_bgr_swap by assumption.
    symmetry. apply rgb_to_bgr_arith.
Qed.

(* ------------------------------------------------------------------------- *)
(** ** The font *)

Lemma set_font_set_font s h f h' f' :
  set_font (set_font s h f) h' f' = set_font s h' f'.
Proof. reflexivity. Qed.

Lemma UpdateFont_forgets P s h f :
  UpdateFont P (set_font s h f) = UpdateFont P s.
Proof. reflexivity. Qed.

Lemma Update_result_frame P settings s s' events :
  Update P settings s = Some (s', events) ->
  exists tx w h, s' = set_size (set_tex (Update_state P settings s) tx) w h.
Proof. unfold Update. apply RenderText_frame. Qed.

(** X4. [UpdateFont] starts from nothing: the font it leaves does not
    depend on the font held before, so running it twice is running it once.
    It leaves either no handle and no font, or a handle and the font built
    from that handle, and it changes no other field. *)
Theorem UpdateFont_fresh P s h f :
  UpdateFont P (set_font s h f) = UpdateFont P s
  /\ UpdateFont P (UpdateFont P s) = UpdateFont P s
  /\ font (UpdateFont P s)
     = option_map (fun x => {| font_handle := x |}) (hfont (UpdateFont P s))
  /\ UpdateFont P s
     = set_font s (hfont (UpdateFont P s)) (font (UpdateFont P s)).
Proof.
  split; [reflexivity|]. split.
  - destruct (UpdateFont_frame P s) as (h1 & f1 & Heq).
    rewrite Heq at 1. apply UpdateFont_forgets.
  - unfold UpdateFont.
    destruct (match (if negb (wstring_empty (face s)) then _ else None) with
              | Some x => Some x
              | None => _
              end); split; reflexivity.
Qed.

(** With a platform that can create "Arial", [UpdateFont] resolves a font. *)
Lemma UpdateFont_with_Arial P s :
  (forall lf, lfFaceName lf = Arial -> is_Some (CreateFontIndirect P lf)) ->
  exists h, hfont (UpdateFont P s) = Some h
            /\ font (UpdateFont P s) = Some {| font_handle := h |}.
Proof.
  intros HArial. unfold UpdateFont.
  destruct (if negb (wstring_empty (face s)) then _ else None) as [h|].
  - exists h. split; reflexivity.
  - match goal with
    | |- context [CreateFontIndirect P ?lf] =>
        destruct (HArial lf eq_refl) as [h Hh]; rewrite Hh
    end.
    exists h. split; reflexivity.
Qed.

(** X5. The fallback never leaves an update without a font when the
    platform can create "Arial" for every size and style. Whatever the
    settings, the state that the update hands to the rendering step holds a
    font handle and the font built from it, so the rendering step does not
    go through a null font pointer; and an update that returns leaves that
    handle and that font in the state. *)
Theorem Update_resolves_font P settings s :
  (forall lf, lfFaceName lf = Arial -> is_Some (CreateFontIndirect P lf)) ->
  null_font_use (Update_state P settings s) = false
  /\ (exists h, hfont (Update_state P settings s) = Some h
               /\ font (Update_state P settings s)
                  = Some {| font_handle := h |})
  /\ forall s' events,
       Update P settings s = Some (s', events) ->
       hfont s' = hfont (Update_state P settings s)
       /\ font s' = font (Update_state P settings s)
       /\ exists h, hfont s' = Some h
                    /\ font s' = Some {| font_handle := h |}.
Proof.
  intros HArial.
  destruct (UpdateFont_with_Arial P (apply_settings P settings s) HArial)
    as (h & Hh & Hf).
  fold (Update_state P settings s) in Hh, Hf.
  split; [unfold null_font_use; rewrite Hf; apply andb_false_r|].
  split; [exists h; split; assumption|].
  intros s' events Hrun.
  apply Update_result_frame in Hrun as (tx & w & h' & ->).
  cbn [hfont font set_size set_tex].
  split; [reflexivity|]. split; [reflexivity|].
  exists h. split; assumption.
Qed.

Lemma Update_resolves_font_witness :
  exists s' events,
    Update sample_platform (sample_settings "Hi" 22) TextSource.init
    = Some (s', events)
    /\ exists h, hfont s' = Some h /\ font s' = Some {| font_handle := h |}.
Proof.
  eexists _, _. split; [vm_compute; reflexivity|].
  match goal with
  | |- exists h, hfont ?s' = _ /\ _ =>
      destruct (Update_resolves_font sample_platform
                  (sample_settings "Hi" 22) TextSource.init
                  ltac:(intros lf _; eexists; reflexivity))
        as (_ & _ & Hkept);
      destruct (Hkept s' _ ltac:(vm_compute; reflexivity))
        as (_ & _ & h & Hh & Hf)
  end.
  exists h. split; assumption.
Defined.

(* ------------------------------------------------------------------------- *)
(** ** The string format and the measured size *)

(** X6. Whatever format it is given, [GetStringFormat] leaves it with
    these four properties. Trimming is by word; the flags carry "no fit
    black box" and "measure trailing spaces", and "vertical" and "right to
    left" exactly in vertical mode. In horizontal mode the alignment along
    the line follows [align] and the alignment across the lines follows
    [valign]; in vertical mode [valign] gives the alignment along the line
    and [align], reversed, the alignment across the lines. *)
Theorem GetStringFormat_axes s f :
  let r := GetStringFormat s f in
  StringFormat.Trimming r = StringTrimmingWord
  /\ Z.testbit (StringFormat.FormatFlags r) 2 = true
  /\ Z.testbit (StringFormat.FormatFlags r) 11 = true
  /\ Z.testbit (StringFormat.FormatFlags r) 1 = vertical s
  /\ Z.testbit (StringFormat.FormatFlags r) 0 = vertical s
  /\ StringFormat.FormatFlags r
     = (if vertical s then 0x807 else 0x804)
  /\ StringFormat.Alignment r
     = (if vertical s then top_center_bottom (valign s)
        else near_center_far (align s))
  /\ StringFormat.LineAlignment r
     = (if vertical s then opposite (near_center_far (align s))
        else top_center_bottom (valign s)).
Proof.
  unfold GetStringFormat.
  destruct (vertical s), (align s), (valign s); cbn;
    repeat split; reflexivity.
Qed.

Lemma SFltb_irrefl x : SFltb x x = false.
Proof.
  unfold SFltb, SFcompare.
  destruct x as [[|]|[|]| |[|] m e]; try reflexivity;
    rewrite Z.compare_refl, Pos.compare_cont_refl; reflexivity.
Qed.

(** X7. The floor at the font size. After the measuring step the box is
    never thinner than the font size along the thickness axis (the width in
    vertical mode, the height otherwise); where the measured thickness was
    below the font size, the box gets the font size and the integer size is
    the font size itself. The position of the box and its extent along the
    other axis are kept. *)
Theorem thickness_floor P s bb :
  let box := fst (measured_size P s bb) in
  let size := snd (measured_size P s bb) in
  RectF.X box = RectF.X bb /\ RectF.Y box = RectF.Y bb
  /\ (if vertical s
      then RectF.Height box = RectF.Height bb
           /\ F32.ltb (RectF.Width box) (F32.of_Z (face_size s)) = false
           /\ (if F32.ltb (RectF.Width bb) (F32.of_Z (face_size s))
               then RectF.Width box = F32.of_Z (face_size s)
                    /\ SIZE.cx size = face_size s
               else RectF.Width box = RectF.Width bb)
      else RectF.Width box = RectF.Width bb
           /\ F32.ltb (RectF.Height box) (F32.of_Z (face_size s)) = false
           /\ (if F32.ltb (RectF.Height bb) (F32.of_Z (face_size s))
               then RectF.Height box = F32.of_Z (face_size s)
                    /\ SIZE.cy size = face_size s
               else RectF.Height box = RectF.Height bb)).
Proof.
  unfold measured_size.
  destruct (vertical s).
  - destruct (F32.ltb (RectF.Width bb) (F32.of_Z (face_size s))) eqn:Hlt;
      cbn; repeat split; try reflexivity;
      [apply SFltb_irrefl | exact Hlt].
  - destruct (F32.ltb (RectF.Height bb) (F32.of_Z (face_size s))) eqn:Hlt;
      cbn; repeat split; try reflexivity;
      [apply SFltb_irrefl | exact Hlt].
Qed.

(* ------------------------------------------------------------------------- *)
(** ** The bitmap *)

(** [RenderText] with its bitmap spelled out. *)
Lemma RenderText_eq P s :
  null_font_use s = false ->
  RenderText P s
  = Some (sync_texture P s (RenderText_canvas P s) (rendered_bitmap P s)).
Proof.
  intros Hsafe. unfold RenderText, RenderText_canvas, rendered_bitmap.
  destruct (CalculateTextSizes P s _ RectF.zero) as [box size].
  destruct (glyph_ops_cases s box
              (GetStringFormat s StringFormat.GenericTypographic))
    as [[Hbad _]|[_ [ops Hops]]]; [congruence|].
  rewrite Hops. reflexivity.
Qed.

Lemma land_24_range x : 0 <= Z.land x 0xFFFFFF < 2 ^ 24.
Proof.
  change 0xFFFFFF with (Z.ones 24). rewrite Z.land_ones by lia.
  apply Z.mod_pos_bound. lia.
Qed.

Lemma wstring_empty_nil str : wstring_empty str = true <-> str = [].
Proof. destruct str; split; intros H; try reflexivity; discriminate. Qed.

(** X8. An empty text in auto-size mode. [RenderText] returns, font or no
    font; the canvas does not depend on what [MeasureString] would answer;
    the bitmap holds no string; and every colour in it has alpha 0, so no
    background shows, whatever the background colour and opacity. *)
Theorem empty_text_rendering P s :
  text s = [] -> use_extents s = false ->
  RenderText P s
  = Some (sync_texture P s (RenderText_canvas P s) (rendered_bitmap P s))
  /\ (forall P', EPSILON P' = EPSILON P ->
        RenderText_canvas P' s = RenderText_canvas P s)
  /\ Forall (fun op => op_string op = None
                       /\ 0 <= op_colour op < 2 ^ 24)
       (bitmap_ops (rendered_bitmap P s)).
Proof.
  intros Htext Hext.
  assert (Hsafe : null_font_use s = false).
  { unfold null_font_use. rewrite Htext. reflexivity. }
  split; [apply RenderText_eq, Hsafe|]. split.
  - intros P' Heps. unfold RenderText_canvas.
    rewrite !CalculateTextSizes_size.
    unfold measure_text, measured_size. rewrite Htext, Heps. reflexivity.
  - unfold rendered_bitmap.
    destruct (CalculateTextSizes P s _ RectF.zero) as [box size].
    cbn [bitmap_ops].
    unfold glyph_ops, background_ops. rewrite Htext, Hext. cbn [wstring_empty negb orb andb].
    rewrite app_nil_r.
    pose proof (land_24_range (bk_color s)) as Hbk.
    destruct (_ || _); repeat constructor; cbn; lia.
Qed.

(** The empty text: the canvas is 32 pixels wide and 42 high, from the font
    size alone, and the bitmap is cleared to nothing. *)
Lemma empty_text_rendering_witness :
  RenderText_canvas sample_platform (sample_state "" 41) = SIZE.mk 32 42
  /\ Forall (fun op => op_string op = None /\ 0 <= op_colour op < 2 ^ 24)
       (bitmap_ops (rendered_bitmap sample_platform (sample_state "" 41))).
Proof.
  destruct (empty_text_rendering sample_platform (sample_state "" 41))
    as (_ & _ & Hops); [vm_compute; reflexivity | vm_compute; reflexivity |].
  split; [vm_compute; reflexivity | exact Hops].
Defined.

(** X9. The glyph block. It leaves the state as it found it: the newline it
    pushes onto the text is popped. It draws nothing for an empty text and
    something otherwise; every string it draws is the text followed by one
    newline; the last thing it draws is the fill, in the colour made of the
    fill colour and opacity. With an outline it draws exactly a stroke and
    then a fill of the same path, the stroke in the outline colour and as
    wide as the outline. *)
Theorem glyph_block s box format s1 glyphs :
  glyph_ops s box format = Some (s1, glyphs) ->
  s1 = s
  /\ (glyphs = [] <-> text s = [])
  /\ Forall (fun op => op_string op = Some (text s ++ [newline])) glyphs
  /\ (forall op, last glyphs = Some op ->
        op_colour op = calc_color (color s) (opacity s))
  /\ (text s <> [] -> use_outline s = true ->
      exists str len f b,
        glyphs = [DrawPath (calc_color (outline_color s) (outline_opacity s))
                    (outline_size s) str len f b format;
                  FillPath (calc_color (color s) (opacity s)) str len f b
                    format]
        /\ font s = Some f).
Proof.
  intros Hops.
  destruct (glyph_ops_cases s box format) as [[_ Hnone]|[_ [ops Hsame]]];
    [congruence|].
  assert (Hs1 : s1 = s) by congruence.
  split; [exact Hs1|].
  assert (Hbrush : Z.lor (get_alpha_val (opacity s)) (Z.land (color s) 0xFFFFFF)
                   = calc_color (color s) (opacity s))
    by (unfold calc_color; apply Z.lor_comm).
  unfold glyph_ops in Hops. rewrite Hbrush in Hops.
  destruct (text s) as [|c rest] eqn:Htext.
  - cbn in Hops. injection Hops as _ <-.
    split; [split; reflexivity|]. split; [constructor|].
    split; [intros op Hlast; discriminate Hlast|].
    intros Hne. contradiction.
  - cbn [wstring_empty negb] in Hops.
    cbn [use_outline font text set_text] in Hops.
    destruct (use_outline s) eqn:Hout.
    + destruct (font s) as [f|] eqn:Hfont; [|discriminate Hops].
      injection Hops as _ <-. unfold RenderOutlineText.
      cbn [outline_color outline_opacity outline_size set_text].
      split; [split; intros H; discriminate H|].
      split; [repeat constructor|].
      split; [intros op Hlast; injection Hlast as <-; reflexivity|].
      intros _ _. eexists _, _, _, _. split; reflexivity.
    + injection Hops as _ <-.
      split; [split; intros H; discriminate H|].
      split; [repeat constructor|].
      split; [intros op Hlast; injection Hlast as <-; reflexivity|].
      intros _ Hfalse. discriminate Hfalse.
Qed.

Lemma glyph_block_witness :
  exists glyphs,
    glyph_ops (sample_state "Hi" 22) RectF.zero StringFormat.GenericTypographic
    = Some (sample_state "Hi" 22, glyphs)
    /\ Forall (fun op => op_string op = Some [72; 105; 10]) glyphs.
Proof.
  destruct (glyph_ops (sample_state "Hi" 22) RectF.zero
              StringFormat.GenericTypographic) as [[s1 glyphs]|] eqn:Hops;
    [|vm_compute in Hops; discriminate Hops].
  destruct (glyph_block _ _ _ _ _ Hops) as (-> & _ & Hall & _).
  exists glyphs. split; [reflexivity | exact Hall].
Defined.

(** X10. [RenderText] changes the texture and the stored size and nothing
    else: the text, the font and every setting are as before. *)
Theorem RenderText_changes_texture_only P s s' events :
  RenderText P s = Some (s', events) ->
  s' = set_size (set_tex s (tex s')) (cx s') (cy s')
  /\ text s' = text s /\ font s' = font s /\ hfont s' = hfont s.
Proof.
  intros Hrun. apply RenderText_frame in Hrun as (tx & w & h & ->).
  repeat split; reflexivity.
Qed.

Lemma RenderText_changes_texture_only_witness :
  exists s' events,
    RenderText sample_platform (sample_state "Hi" 22) = Some (s', events)
    /\ text s' = text (sample_state "Hi" 22).
Proof.
  destruct (RenderText sample_platform (sample_state "Hi" 22))
    as [[s' events]|] eqn:Hrun; [|vm_compute in Hrun; discriminate Hrun].
  destruct (RenderText_changes_texture_only _ _ _ _ Hrun) as (_ & Ht & _).
  exists s', events. split; [reflexivity | exact Ht].
Defined.

(** X11. The background cannot be configured. In every state reached by
    construction and updates the background colour and opacity are 0, so
    every background operation clears or fills with 0: the bitmap is
    transparent wherever no glyph is drawn. *)
Theorem background_never_configured s :
  reachable s ->
  bk_color s = 0 /\ bk_opacity s = 0
  /\ forall box size,
       Forall (fun op => op_colour op = 0) (background_ops s box size).
Proof.
  intros Hreach.
  assert (Hbk : bk_color s = 0 /\ bk_opacity s = 0).
  { induction Hreach as [|P settings s s' events _ IH Hrun].
    - split; reflexivity.
    - apply Update_frame in Hrun as (hf & f & tx & w & h & ->). exact IH. }
  destruct Hbk as [Hc Ho]. split; [exact Hc|]. split; [exact Ho|].
  intros box size. unfold background_ops. rewrite Hc, Ho.
  destruct (negb (wstring_empty (text s)) || use_extents s);
    destruct (_ && _); repeat constructor.
Qed.

Lemma background_never_configured_witness :
  exists s events,
    Update sample_platform (sample_settings "Hi" 22) TextSource.init
    = Some (s, events)
    /\ bk_color s = 0 /\ bk_opacity s = 0.
Proof.
  eexists _, _. split; [vm_compute; reflexivity|].
  refine (let H := background_never_configured _ _ in
          conj (proj1 H) (proj1 (proj2 H))).
  eapply (reach_update sample_platform (sample_settings "Hi" 22)
            TextSource.init); [apply reach_init | vm_compute; reflexivity].
Defined.

(* ------------------------------------------------------------------------- *)
(** ** The texture, call by call *)

Lemma rendered_bitmap_size P s :
  bitmap_width (rendered_bitmap P s) = SIZE.cx (RenderText_canvas P s)
  /\ bitmap_height (rendered_bitmap P s) = SIZE.cy (RenderText_canvas P s)
  /\ bitmap_stride (rendered_bitmap P s)
     = 4 * SIZE.cx (RenderText_canvas P s).
Proof.
  pose proof (RenderText_canvas_bounds P s) as [Hx _].
  unfold rendered_bitmap, RenderText_canvas in *.
  destruct (CalculateTextSizes P s _ RectF.zero) as [box size].
  cbn [snd] in Hx. cbn [snd bitmap_width bitmap_height bitmap_stride].
  split; [reflexivity|]. split; [reflexivity|].
  apply to_LONG_uint32_small. change (2 ^ 31) with 2147483648. lia.
Qed.

(** The calls of the texture step between entering and leaving. *)
Lemma sync_texture_shape P s size bits :
  exists mid e,
    snd (sync_texture P s size bits)
    = obs_enter_graphics :: mid ++ [obs_leave_graphics]
    /\ existsb is_bracket mid = false
    /\ filter is_upload mid = [e]
    /\ uploaded e = Some bits.
Proof.
  unfold sync_texture.
  destruct (tex s) as [cur|] eqn:Htex; cbn [orb].
  - destruct (negb (to_LONG (cx s) =? SIZE.cx size)
              || negb (to_LONG (cy s) =? SIZE.cy size)).
    + eexists [_; _], _. cbn. repeat split; reflexivity.
    + eexists [_], _. cbn. repeat split; reflexivity.
  - eexists [_], _. cbn. repeat split; reflexivity.
Qed.

(** X12. Each [RenderText] that returns enters the graphics context first,
    leaves it last, and does not enter or leave in between; in between it
    hands the bitmap it has just rendered to the host exactly once, by
    creating a texture or by setting the image of one. That bitmap has the
    size of the canvas and a stride of four bytes a pixel. *)
Theorem RenderText_uploads_once P s s' events :
  RenderText P s = Some (s', events) ->
  exists mid e,
    events = obs_enter_graphics :: mid ++ [obs_leave_graphics]
    /\ existsb is_bracket mid = false
    /\ filter is_upload mid = [e]
    /\ uploaded e = Some (rendered_bitmap P s)
    /\ bitmap_width (rendered_bitmap P s) = SIZE.cx (RenderText_canvas P s)
    /\ bitmap_height (rendered_bitmap P s) = SIZE.cy (RenderText_canvas P s)
    /\ bitmap_stride (rendered_bitmap P s)
       = 4 * bitmap_width (rendered_bitmap P s).
Proof.
  intros Hrun.
  destruct (RenderText_inv P s s' events Hrun) as (Hsafe & _).
  rewrite RenderText_eq in Hrun by exact Hsafe.
  destruct (sync_texture_shape P s (RenderText_canvas P s)
              (rendered_bitmap P s)) as (mid & e & Hev & Hin & Hup & Hbits).
  destruct (rendered_bitmap_size P s) as (Hw & Hh & Hstride).
  exists mid, e.
  replace events
    with (snd (sync_texture P s (RenderText_canvas P s) (rendered_bitmap P s)))
    by (injection Hrun as ->; reflexivity).
  repeat split; try assumption. rewrite Hw. exact Hstride.
Qed.

Lemma RenderText_uploads_once_witness :
  exists s' events mid e,
    RenderText sample_platform (sample_state "Hi" 22) = Some (s', events)
    /\ events = obs_enter_graphics :: mid ++ [obs_leave_graphics]
    /\ filter is_upload mid = [e].
Proof.
  destruct (RenderText sample_platform (sample_state "Hi" 22))
    as [[s' events]|] eqn:Hrun; [|vm_compute in Hrun; discriminate Hrun].
  destruct (RenderText_uploads_once _ _ _ _ Hrun)
    as (mid & e & Hev & _ & Hup & _).
  exists s', events, mid, e. repeat split; assumption.
Defined.

Lemma gs_replay_app o ev1 ev2 :
  gs_replay o (ev1 ++ ev2)
  = match gs_replay o ev1 with
    | Some o' => gs_replay o' ev2
    | None => None
    end.
Proof.
  revert o. induction ev1 as [|e ev1 IH]; intros o; [reflexivity|].
  cbn [app gs_replay]. destruct (gs_step o e); [apply IH | reflexivity].
Qed.

Lemma holds_same b t : holds {| in_graphics := b; held := Some t |} t = true.
Proof. unfold holds. cbn. apply Z.eqb_refl. Qed.

Ltac replay_calls :=
  repeat (progress (cbn [gs_replay gs_step in_graphics held andb app];
                    rewrite ?holds_same)).

Lemma sync_texture_replay P s size bits :
  gs_replay {| in_graphics := false; held := tex s |}
    (snd (sync_texture P s size bits))
  = Some {| in_graphics := false;
            held := tex (fst (sync_texture P s size bits)) |}.
Proof.
  unfold sync_texture.
  destruct (tex s) as [cur|] eqn:Htex; cbn [orb].
  - destruct (negb (to_LONG (cx s) =? SIZE.cx size)
              || negb (to_LONG (cy s) =? SIZE.cy size));
      cbn [fst snd tex set_size set_tex destroy_of]; replay_calls;
      try rewrite Htex; reflexivity.
  - cbn [fst snd tex set_size set_tex destroy_of]. replay_calls. reflexivity.
Qed.

Lemma Render_replay s :
  gs_replay {| in_graphics := false; held := tex s |} (Render s)
  = Some {| in_graphics := false; held := tex s |}.
Proof.
  unfold Render. destruct (tex s) as [cur|]; [|reflexivity].
  replay_calls. reflexivity.
Qed.

Lemma Destroy_replay s :
  gs_replay {| in_graphics := false; held := tex s |} (Destroy s)
  = Some {| in_graphics := false; held := None |}.
Proof.
  unfold Destroy. destruct (tex s) as [cur|]; [|reflexivity].
  replay_calls. reflexivity.
Qed.

(** X13. Over the whole life of a source (construction, then updates and
    frames in any order) the calls made to the host keep its rules. The
    source enters the graphics context before it creates, destroys or
    writes a texture and leaves it afterwards; it destroys, writes and
    draws only the texture it holds; it creates a texture only when it
    holds none, so none is leaked. After the calls so far the host holds
    the texture the state names, and after the destructor none. *)
Theorem run_keeps_protocol s trace :
  run s trace ->
  gs_replay {| in_graphics := false; held := None |} trace
  = Some {| in_graphics := false; held := tex s |}
  /\ gs_replay {| in_graphics := false; held := None |} (trace ++ Destroy s)
     = Some {| in_graphics := false; held := None |}.
Proof.
  intros Hrun.
  assert (Hreplay : gs_replay {| in_graphics := false; held := None |} trace
                    = Some {| in_graphics := false; held := tex s |}).
  { induction Hrun as [|P settings s trace s' events _ IH Hup|s trace _ IH].
    - reflexivity.
    - rewrite gs_replay_app, IH.
      destruct (Update_state_texture P settings s) as (Htex & _ & _).
      apply Update_inv in Hup as (bits & Heq & _).
      rewrite <- Htex.
      replace events with (snd (sync_texture P (Update_state P settings s)
                                  (Update_canvas P settings s) bits))
        by (rewrite <- Heq; reflexivity).
      replace s' with (fst (sync_texture P (Update_state P settings s)
                              (Update_canvas P settings s) bits))
        by (rewrite <- Heq; reflexivity).
      apply sync_texture_replay.
    - rewrite gs_replay_app, IH. apply Render_replay. }
  split; [exact Hreplay|].
  rewrite gs_replay_app, Hreplay. apply Destroy_replay.
Qed.

(** Two updates of different sizes with a frame in between, then the
    destructor: ten calls and the three of the destructor, all within the
    rules. *)
Lemma run_keeps_protocol_witness :
  exists s trace,
    run s trace /\ length trace = 10%nat
    /\ gs_replay {| in_graphics := false; held := None |} (trace ++ Destroy s)
       = Some {| in_graphics := false; held := None |}.
Proof.
  eexists _, _. split; [|split].
  - eapply (run_update sample_platform (sample_settings "Hello, world" 41)).
    + eapply run_render.
      eapply (run_update sample_platform (sample_settings "Hi" 22)).
      * apply run_init.
      * vm_compute. reflexivity.
    + vm_compute. reflexivity.
  - vm_compute. reflexivity.
  - match goal with
    | |- gs_replay _ (?tr ++ Destroy ?s) = _ =>
        refine (proj2 (run_keeps_protocol s tr _))
    end.
    eapply (run_update sample_platform (sample_settings "Hello, world" 41)).
    + eapply run_render.
      eapply (run_update sample_platform (sample_settings "Hi" 22)).
      * apply run_init.
      * vm_compute. reflexivity.
    + vm_compute. reflexivity.
Defined.

(** X14. A frame after an update. From a well-typed state, the frame that
    follows an update draws the texture the update left, once, at the
    canvas size the update computed, after resetting the blend state and
    binding the texture to the "image" parameter; with no texture it makes
    no call. It never enters the graphics context and never creates,
    destroys or writes a texture. *)
Theorem Render_after_Update P settings s s' events :
  well_typed s ->
  Update P settings s = Some (s', events) ->
  Render s'
  = match tex s' with
    | Some t =>
        [gs_reset_blend_state;
         gs_effect_set_texture "image" t;
         gs_draw_sprite t 0 (SIZE.cx (Update_canvas P settings s))
           (SIZE.cy (Update_canvas P settings s))]
    | None => []
    end
  /\ existsb is_bracket (Render s') = false
  /\ existsb is_upload (Render s') = false
  /\ existsb is_destroy (Render s') = false.
Proof.
  intros Hwt Hrun.
  destruct (Update_size P settings s s' events Hwt Hrun) as [Hx Hy].
  unfold Render. rewrite Hx, Hy.
  destruct (tex s'); repeat split; reflexivity.
Qed.

Lemma Render_after_Update_witness :
  exists s' events,
    Update sample_platform (sample_settings "Hello, world" 41) TextSource.init
    = Some (s', events)
    /\ Render s'
       = [gs_reset_blend_state;
          gs_effect_set_texture "image" (96 * 65536 + 42);
          gs_draw_sprite (96 * 65536 + 42) 0 96 42].
Proof.
  eexists _, _. split; [vm_compute; reflexivity|].
  match goal with
  | |- Render ?s' = _ =>
      rewrite (proj1 (Render_after_Update sample_platform
                        (sample_settings "Hello, world" 41) TextSource.init
                        s' _ well_typed_init
                        ltac:(vm_compute; reflexivity)))
  end.
  vm_compute. reflexivity.
Defined.

(* ------------------------------------------------------------------------- *)
(** ** Updates, one after another *)

Lemma set_texture_eta s :
  set_size (set_tex s (tex s)) (cx s) (cy s) = s.
Proof. destruct s; reflexivity. Qed.

(** The settings of an update, applied to the state that update left, give
    that state. *)
Lemma apply_settings_again P settings s hf f tx w h :
  apply_settings P settings
    (set_size (set_tex (set_font (apply_settings P settings s) hf f) tx) w h)
  = set_size (set_tex (set_font (apply_settings P settings s) hf f) tx) w h.
Proof.
  unfold apply_settings.
  cbn [set_size set_tex set_font text tex cx cy hfont font read_from_file file
       face face_size color opacity bk_color bk_opacity align valign bold
       italic underline strikeout vertical use_outline outline_size
       outline_color outline_opacity use_extents wrap extents_cx extents_cy].
  destruct (obs_data_get_bool (Some settings) S_USE_FILE); reflexivity.
Qed.

Lemma UpdateFont_set_texture P s tx w h :
  UpdateFont P (set_size (set_tex s tx) w h)
  = set_size (set_tex (UpdateFont P s) tx) w h.
Proof.
  unfold UpdateFont.
  cbn [set_size set_tex face face_size bold italic underline strikeout].
  destruct (match (if negb (wstring_empty (face s)) then _ else None) with
            | Some x => Some x
            | None => _
            end); reflexivity.
Qed.

Lemma Update_state_again P settings s s1 events :
  Update P settings s = Some (s1, events) ->
  Update_state P settings s1 = s1.
Proof.
  intros Hrun.
  apply Update_result_frame in Hrun as (tx & w & h & Hs1).
  unfold Update_state in *.
  destruct (UpdateFont_frame P (apply_settings P settings s)) as (hf & f & Hf).
  rewrite Hf in Hs1. rewrite Hs1 at 1.
  rewrite apply_settings_again, UpdateFont_set_texture, UpdateFont_forgets.
  rewrite Hf. symmetry. exact Hs1.
Qed.

Lemma sync_texture_kept_none P s size bits :
  tex (fst (sync_texture P s size bits)) = None ->
  gs_texture_create_result P (to_uint32 (SIZE.cx size))
    (to_uint32 (SIZE.cy size)) bits = None.
Proof.
  unfold sync_texture.
  destruct (tex s) as [cur|] eqn:Htex; cbn [orb].
  - destruct (negb (to_LONG (cx s) =? SIZE.cx size)
              || negb (to_LONG (cy s) =? SIZE.cy size));
      cbn [fst tex set_size set_tex]; intros Hnone; [exact Hnone|congruence].
  - cbn [fst tex set_size set_tex]. intros Hnone. exact Hnone.
Qed.

Lemma RenderText_canvas_set_texture P s tx w h :
  RenderText_canvas P (set_size (set_tex s tx) w h) = RenderText_canvas P s.
Proof. reflexivity. Qed.

Lemma glyph_list_set_texture s tx w h box format :
  match glyph_ops (set_size (set_tex s tx) w h) box format with
  | Some (_, glyphs) => glyphs
  | None => []
  end
  = match glyph_ops s box format with
    | Some (_, glyphs) => glyphs
    | None => []
    end.
Proof.
  unfold glyph_ops, RenderOutlineText.
  cbn [set_size set_tex set_text text use_outline font opacity color
       outline_size outline_color outline_opacity].
  destruct (wstring_empty (text s)); cbn [negb]; [reflexivity|].
  destruct (use_outline s); [destruct (font s)|]; reflexivity.
Qed.

Lemma rendered_bitmap_set_texture P s tx w h :
  rendered_bitmap P (set_size (set_tex s tx) w h) = rendered_bitmap P s.
Proof.
  unfold rendered_bitmap.
  change (GetStringFormat (set_size (set_tex s tx) w h))
    with (GetStringFormat s).
  change (CalculateTextSizes P (set_size (set_tex s tx) w h))
    with (CalculateTextSizes P s).
  destruct (CalculateTextSizes P s _ RectF.zero) as [box size].
  change (background_ops (set_size (set_tex s tx) w h))
    with (background_ops s).
  rewrite glyph_list_set_texture. reflexivity.
Qed.

(** X15. Applying the same settings twice, with the same platform. From a
    well-typed state, the second update returns and leaves the state of
    the first; it computes the same canvas and renders the same bitmap, and
    it destroys nothing. When the first left a texture, the second only
    sets its image. *)
Theorem Update_idempotent P settings s s1 ev1 :
  well_typed s ->
  Update P settings s = Some (s1, ev1) ->
  exists ev2,
    Update P settings s1 = Some (s1, ev2)
    /\ Update_canvas P settings s1 = Update_canvas P settings s
    /\ rendered_bitmap P (Update_state P settings s1)
       = rendered_bitmap P (Update_state P settings s)
    /\ existsb is_destroy ev2 = false
    /\ (forall t, tex s1 = Some t ->
          ev2 = [obs_enter_graphics;
                 gs_texture_set_image t
                   (rendered_bitmap P (Update_state P settings s))
                   (4 * cx s1);
                 obs_leave_graphics]).
Proof.
  intros Hwt Hrun.
  pose proof (Update_state_again P settings s s1 ev1 Hrun) as Hagain.
  destruct (Update_size P settings s s1 ev1 Hwt Hrun) as [Hx Hy].
  destruct (RenderText_canvas_bounds P (Update_state P settings s)) as [Bx By].
  fold (Update_canvas P settings s) in Bx, By.
  assert (Hsafe : null_font_use (Update_state P settings s) = false).
  { apply Update_defined_iff. rewrite Hrun. eexists. reflexivity. }
  pose proof Hrun as Hframe.
  apply Update_result_frame in Hframe as (tx & w & h & Hs1).
  assert (Hcanvas : Update_canvas P settings s1 = Update_canvas P settings s).
  { unfold Update_canvas. rewrite Hagain. rewrite Hs1 at 1.
    apply RenderText_canvas_set_texture. }
  assert (Hbits : rendered_bitmap P (Update_state P settings s1)
                  = rendered_bitmap P (Update_state P settings s)).
  { rewrite Hagain. rewrite Hs1 at 1. apply rendered_bitmap_set_texture. }
  assert (Hsafe1 : null_font_use s1 = false).
  { rewrite Hs1. exact Hsafe. }
  assert (Hrun2 : Update P settings s1
                  = Some (sync_texture P s1 (Update_canvas P settings s)
                            (rendered_bitmap P (Update_state P settings s)))).
  { unfold Update. fold (Update_state P settings s1).
    rewrite RenderText_eq by (rewrite Hagain; exact Hsafe1).
    fold (Update_canvas P settings s1). rewrite Hcanvas, Hbits, Hagain.
    reflexivity. }
  destruct (tex s1) as [t|] eqn:Htex.
  - rewrite (sync_texture_reuse P s1 _ _ t) in Hrun2;
      [| exact Htex
       | rewrite Hx; apply to_LONG_uint32_small; lia
       | rewrite Hy; apply to_LONG_uint32_small; lia].
    rewrite to_uint32_small in Hrun2 by (unfold is_uint32; lia).
    eexists. split; [exact Hrun2|]. split; [exact Hcanvas|].
    split; [exact Hbits|]. split; [reflexivity|].
    intros t' Ht'. injection Ht' as <-. rewrite Hx.
    rewrite (Z.mul_comm 4). reflexivity.
  - rewrite sync_texture_recreate in Hrun2 by (left; exact Htex).
    rewrite Htex in Hrun2. cbn [destroy_of app] in Hrun2.
    assert (Hfailed :
              gs_texture_create_result P
                (to_uint32 (SIZE.cx (Update_canvas P settings s)))
                (to_uint32 (SIZE.cy (Update_canvas P settings s)))
                (rendered_bitmap P (Update_state P settings s)) = None).
    { apply (sync_texture_kept_none P (Update_state P settings s)).
      unfold Update in Hrun. fold (Update_state P settings s) in Hrun.
      rewrite RenderText_eq in Hrun by exact Hsafe.
      fold (Update_canvas P settings s) in Hrun.
      injection Hrun as Hrun. rewrite Hrun. exact Htex. }
    rewrite Hfailed in Hrun2.
    rewrite !to_uint32_small in Hrun2 by (unfold is_uint32; lia).
    rewrite <- Hx, <- Hy, <- Htex, set_texture_eta in Hrun2.
    eexists. split; [exact Hrun2|]. split; [exact Hcanvas|].
    split; [exact Hbits|]. split; [reflexivity|].
    intros t Ht. discriminate Ht.
Qed.

Lemma Update_idempotent_witness :
  exists s1 ev1 ev2,
    Update sample_platform (sample_settings "Hi" 22) TextSource.init
    = Some (s1, ev1)
    /\ Update sample_platform (sample_settings "Hi" 22) s1 = Some (s1, ev2)
    /\ existsb is_destroy ev2 = false.
Proof.
  destruct (Update sample_platform (sample_settings "Hi" 22) TextSource.init)
    as [[s1 ev1]|] eqn:Hrun; [|vm_compute in Hrun; discriminate Hrun].
  destruct (Update_idempotent _ _ _ _ _ well_typed_init Hrun)
    as (ev2 & Hrun2 & _ & _ & Hd & _).
  exists s1, ev1, ev2. split; [reflexivity|]. split; assumption.
Defined.

(** A colour key changes the two colours and the two opacities of the
    state the settings give, and nothing else. *)
Lemma apply_settings_colour_key P settings s k v :
  In k colour_keys ->
  exists c o oc oo,
    apply_settings P (<[k:=v]> settings) s
    = set_colours (apply_settings P settings s) c o oc oo.
Proof.
  intros Hk. unfold colour_keys in Hk. cbn [In] in Hk.
  exists (color (apply_settings P (<[k:=v]> settings) s)),
    (opacity (apply_settings P (<[k:=v]> settings) s)),
    (outline_color (apply_settings P (<[k:=v]> settings) s)),
    (outline_opacity (apply_settings P (<[k:=v]> settings) s)).
  unfold apply_settings, obs_data_get_uint32, obs_data_get_string,
    obs_data_get_int, obs_data_get_bool, obs_data_get_obj.
  cbn [set_colours text tex cx cy hfont font read_from_file file
       face face_size color opacity bk_color bk_opacity align valign bold
       italic underline strikeout vertical use_outline outline_size
       outline_color outline_opacity use_extents wrap extents_cx extents_cy].
  destruct Hk as [<-|[<-|[<-|[<-|[]]]]];
    repeat match goal with
           | |- context [obs_data_item (Some (<[?key:=?val]> ?m)) ?name] =>
               rewrite (obs_data_item_insert_ne m key val name) by discriminate
           end;
    reflexivity.
Qed.

Lemma UpdateFont_set_colours P s c o oc oo :
  UpdateFont P (set_colours s c o oc oo)
  = set_colours (UpdateFont P s) c o oc oo.
Proof.
  unfold UpdateFont.
  cbn [set_colours face face_size bold italic underline strikeout].
  destruct (match (if negb (wstring_empty (face s)) then _ else None) with
            | Some x => Some x
            | None => _
            end); reflexivity.
Qed.

(** X16. Changing only a colour or an opacity never reallocates. After an
    update that left a texture, an update with the same platform and the
    same settings but for one of the keys "color", "opacity",
    "outline_color", "outline_opacity" returns, keeps the texture and the
    stored size, and only sets the image of that texture; the state differs
    from the one before in the two colours and the two opacities at most. *)
Theorem colour_change_keeps_texture P settings s s1 ev1 k v t :
  well_typed s ->
  Update P settings s = Some (s1, ev1) ->
  tex s1 = Some t ->
  In k colour_keys ->
  exists s2 bits c o oc oo,
    Update P (<[k:=v]> settings) s1
    = Some (s2, [obs_enter_graphics;
                 gs_texture_set_image t bits (4 * cx s1);
                 obs_leave_graphics])
    /\ s2 = set_colours s1 c o oc oo
    /\ tex s2 = Some t /\ cx s2 = cx s1 /\ cy s2 = cy s1.
Proof.
  intros Hwt Hrun Htex Hk.
  pose proof (Update_state_again P settings s s1 ev1 Hrun) as Hagain.
  destruct (Update_size P settings s s1 ev1 Hwt Hrun) as [Hx Hy].
  destruct (RenderText_canvas_bounds P (Update_state P settings s)) as [Bx By].
  fold (Update_canvas P settings s) in Bx, By.
  assert (Hsafe : null_font_use (Update_state P settings s) = false).
  { apply Update_defined_iff. rewrite Hrun. eexists. reflexivity. }
  pose proof Hrun as Hframe.
  apply Update_result_frame in Hframe as (tx & w & h & Hs1).
  destruct (apply_settings_colour_key P settings s1 k v Hk)
    as (c & o & oc & oo & Hcol).
  assert (Hstate : Update_state P (<[k:=v]> settings) s1
                   = set_colours s1 c o oc oo).
  { unfold Update_state. rewrite Hcol, UpdateFont_set_colours.
    fold (Update_state P settings s1). rewrite Hagain. reflexivity. }
  assert (Hcanvas : RenderText_canvas P (set_colours s1 c o oc oo)
                    = Update_canvas P settings s).
  { change (RenderText_canvas P (set_colours s1 c o oc oo))
      with (RenderText_canvas P s1).
    rewrite Hs1. apply RenderText_canvas_set_texture. }
  assert (Hsafe2 : null_font_use (set_colours s1 c o oc oo) = false).
  { change (null_font_use (set_colours s1 c o oc oo))
      with (null_font_use s1). rewrite Hs1. exact Hsafe. }
  exists (set_colours s1 c o oc oo),
    (rendered_bitmap P (set_colours s1 c o oc oo)), c, o, oc, oo.
  split; [|repeat split; assumption].
  unfold Update. fold (Update_state P (<[k:=v]> settings) s1).
  rewrite Hstate, RenderText_eq by exact Hsafe2.
  rewrite Hcanvas.
  rewrite (sync_texture_reuse P _ _ _ t);
    [| exact Htex
     | cbn [cx set_colours]; rewrite Hx; apply to_LONG_uint32_small; lia
     | cbn [cy set_colours]; rewrite Hy; apply to_LONG_uint32_small; lia].
  rewrite to_uint32_small by (unfold is_uint32; lia).
  rewrite Hx, (Z.mul_comm 4). reflexivity.
Qed.

Lemma colour_change_keeps_texture_witness :
  exists s1 ev1,
    Update sample_platform (sample_settings "Hi" 22) TextSource.init
    = Some (s1, ev1)
    /\ exists s2 bits,
         Update sample_platform
           (<[S_COLOR:=OInt 0x00FF00]> (sample_settings "Hi" 22)) s1
         = Some (s2, [obs_enter_graphics;
                      gs_texture_set_image (32 * 65536 + 32) bits (4 * cx s1);
                      obs_leave_graphics]).
Proof.
  eexists _, _. split; [vm_compute; reflexivity|].
  match goal with
  | |- exists s2 bits, Update _ _ ?s1 = _ =>
      destruct (colour_change_keeps_texture sample_platform
                  (sample_settings "Hi" 22) TextSource.init s1 _ S_COLOR
                  (OInt 0x00FF00) (32 * 65536 + 32) well_typed_init
                  ltac:(vm_compute; reflexivity)
                  ltac:(vm_compute; reflexivity)
                  ltac:(left; reflexivity))
        as (s2 & bits & _ & _ & _ & _ & Hrun2 & _)
  end.
  exists s2, bits. exact Hrun2.
Defined.



(* ------------------------------------------------------------------------- *)
(** ** The property panel *)

Lemma chars_append a b : chars (a ++ b)%string = chars a ++ chars b.
Proof.
  unfold chars. induction a as [|c a IH]; [reflexivity|].
  simpl. f_equal. exact IH.
Qed.

Lemma string_append_empty a : (a ++ "")%string = a.
Proof.
  induction a as [|c a IH]; [reflexivity|].
  change (String c (a ++ "")%string = String c a). f_equal. exact IH.
Qed.

Lemma replace_char_removes old new str :
  old <> new -> ~ In old (chars (replace_char old new str)).
Proof.
  intros Hne. induction str as [|a rest IH]; [intros []|].
  cbn. intros [Heq|Hin]; [|exact (IH Hin)].
  destruct (Ascii.eqb_spec a old) as [->|Hdiff]; congruence.
Qed.

Lemma strrchr_none str c : strrchr str c = None -> ~ In c (chars str).
Proof.
  induction str as [|a rest IH]; [intros _ []|].
  cbn. destruct (strrchr rest c); [discriminate|].
  destruct (Ascii.eqb_spec a c) as [->|Hdiff]; [discriminate|].
  intros _ [Heq|Hin]; [congruence | exact (IH eq_refl Hin)].
Qed.

(** The last occurrence splits the string; cutting after it keeps the part
    before and the character itself. *)
Lemma strrchr_some str c i :
  strrchr str c = Some i ->
  exists dir name,
    str = (dir ++ String c name)%string
    /\ String.length dir = i
    /\ ~ In c (chars name)
    /\ resize str (i + 1) = (dir ++ String c "")%string.
Proof.
  revert i. induction str as [|a rest IH]; intros i; [discriminate|].
  cbn [strrchr]. destruct (strrchr rest c) as [j|] eqn:Hrest.
  - intros Hi. injection Hi as <-.
    destruct (IH j eq_refl) as (dir & name & Hsplit & Hlen & Hno & Hcut).
    exists (String a dir), name.
    change (String a dir ++ String c name)%string
      with (String a (dir ++ String c name)%string).
    change (String a dir ++ String c "")%string
      with (String a (dir ++ String c "")%string).
    split; [rewrite <- Hsplit; reflexivity|].
    split; [cbn [String.length]; rewrite Hlen; reflexivity|].
    split; [exact Hno|].
    change (resize (String a rest) (S j + 1))
      with (String a (resize rest (j + 1))).
    rewrite Hcut. reflexivity.
  - destruct (Ascii.eqb_spec a c) as [->|Hdiff]; [|discriminate].
    intros Hi. injection Hi as <-.
    exists EmptyString, rest.
    split; [reflexivity|]. split; [reflexivity|].
    split; [apply strrchr_none, Hrest | reflexivity].
Qed.

(** X18. The directory that [get_properties] offers to the file dialog.
    With no source, or no file, it is empty. Otherwise take the file name
    with every backslash turned into a slash: the directory is a prefix of
    it that holds no backslash, and what follows the prefix holds no slash;
    when the name holds a slash the directory ends with one, and when it
    holds none the directory is the whole name. *)
Theorem default_path_is_directory s :
  let norm := replace_char backslash slash (file s) in
  let dir := default_path (Some s) in
  default_path None = EmptyString
  /\ (file s = EmptyString -> dir = EmptyString)
  /\ ~ In backslash (chars dir)
  /\ (exists name, norm = (dir ++ name)%string /\ ~ In slash (chars name))
  /\ (In slash (chars norm) ->
      exists parent, dir = (parent ++ String slash EmptyString)%string)
  /\ (~ In slash (chars norm) -> dir = norm).
Proof.
  intros norm dir. subst dir. unfold default_path.
  split; [reflexivity|].
  destruct (file s) as [|a rest] eqn:Hfile.
  - cbn in norm. subst norm.
    repeat split; try reflexivity; try (intros []).
    exists EmptyString. split; [reflexivity | intros []].
  - split; [discriminate|].
    fold norm.
    assert (Hclean : ~ In backslash (chars norm))
      by (apply replace_char_removes; discriminate).
    destruct (strrchr norm slash) as [i|] eqn:Hlast.
    + destruct (strrchr_some norm slash i Hlast)
        as (parent & name & Hsplit & _ & Hno & Hcut).
      rewrite Hcut. repeat split.
      * intros Hin. apply Hclean. rewrite Hsplit.
        rewrite chars_append in *. apply in_app_or in Hin as [Hin|Hin];
          apply in_or_app; [left; exact Hin | right].
        destruct Hin as [Heq|[]]. left. exact Heq.
      * exists name. split; [|exact Hno].
        rewrite Hsplit. clear. induction parent as [|c p IH]; [reflexivity|].
        change (String c (p ++ String slash name)%string
                = String c ((p ++ String slash "") ++ name)%string).
        f_equal. exact IH.
      * intros _. exists parent. reflexivity.
      * intros Hnone. exfalso. apply Hnone. rewrite Hsplit, chars_append.
        apply in_or_app. right. left. reflexivity.
    + repeat split.
      * exact Hclean.
      * exists EmptyString. split; [symmetry; apply string_append_empty
                                   | intros []].
      * intros Hin. exfalso. exact (strrchr_none _ _ Hlast Hin).
Qed.

(** The file of the state is a Windows path: the directory is the path up
    to and with its last separator, with slashes. *)
Example default_path_of_windows_file :
  default_path
    (Some (TextSource.mk [] None 0 0 None None true "C:\notes\obs/title.txt"
             [] 0 0 0 0 0 Align.Left VAlign.Top false false false false
             false false F32.zero 0 0 false false 0 0))
  = "C:/notes/obs/"%string.
Proof. vm_compute. reflexivity. Qed.

Lemma default_path_is_directory_witness :
  exists parent,
    default_path
      (Some (TextSource.mk [] None 0 0 None None true "a\b" [] 0 0 0 0 0
               Align.Left VAlign.Top false false false false false false
               F32.zero 0 0 false false 0 0))
    = (parent ++ String slash EmptyString)%string.
Proof.
  destruct (default_path_is_directory
              (TextSource.mk [] None 0 0 None None true "a\b" [] 0 0 0 0 0
                 Align.Left VAlign.Top false false false false false false
                 F32.zero 0 0 false false 0 0))
    as (_ & _ & _ & _ & Hdir & _).
  apply Hdir. right. left. reflexivity.
Defined.

(** X20. The two callbacks on the panel that [get_properties] builds, for
    any source, localisation and settings. [use_file_changed] shows
    exactly one of the text box and the file box: the file box when the
    text is read from a file, the text box otherwise. [outline_changed]
    shows the size, colour and opacity of the outline exactly when the
    outline is on. Both return true, leave every other property shown, and
    give the same panel in either order. *)
Theorem panel_callbacks T_ data settings :
  let panel := get_properties T_ data in
  let use_file := obs_data_get_bool (Some settings) S_USE_FILE in
  let outline := obs_data_get_bool (Some settings) S_OUTLINE in
  let after_file := use_file_changed panel settings in
  let after_outline := outline_changed panel settings in
  snd after_file = true /\ snd after_outline = true
  /\ is_visible (fst after_file) S_TEXT = Some (negb use_file)
  /\ is_visible (fst after_file) S_FILE = Some use_file
  /\ map (is_visible (fst after_outline))
       [S_OUTLINE_SIZE; S_OUTLINE_COLOR; S_OUTLINE_OPACITY]
     = [Some outline; Some outline; Some outline]
  /\ map (is_visible (fst after_file))
       [S_FONT; S_USE_FILE; S_VERTICAL; S_COLOR; S_OPACITY; S_ALIGN;
        S_VALIGN; S_OUTLINE; S_OUTLINE_SIZE; S_OUTLINE_COLOR;
        S_OUTLINE_OPACITY]
     = repeat (Some true) 11
  /\ map (is_visible (fst after_outline))
       [S_FONT; S_USE_FILE; S_TEXT; S_FILE; S_VERTICAL; S_COLOR; S_OPACITY;
        S_ALIGN; S_VALIGN; S_OUTLINE]
     = repeat (Some true) 10
  /\ fst (outline_changed (fst after_file) settings)
     = fst (use_file_changed (fst after_outline) settings).
Proof.
  cbv zeta. unfold use_file_changed, outline_changed.
  destruct (obs_data_get_bool (Some settings) S_USE_FILE);
    destruct (obs_data_get_bool (Some settings) S_OUTLINE);
    repeat split; reflexivity.
Qed.

(** The value the settings hold for a key that was just set. *)
Lemma obs_data_get_string_insert (m : gmap string obs_value) k str :
  obs_data_get_string (Some (<[k:=OString str]> m)) k = str.
Proof.
  unfold obs_data_get_string, obs_data_item.
  rewrite lookup_insert_eq. reflexivity.
Qed.

(** X21. The panel and [Update] agree. The panel offers each key once, and
    the keys it offers are the keys [Update] asks the settings for. Each
    value the alignment list offers gives its own alignment in an update,
    in the order left, centre, right, and each value the vertical
    alignment list offers gives its own in the order top, centre, bottom;
    so no choice of the panel falls back on the default by being unknown to
    [Update], except "left" and "top", which are the defaults. *)
Theorem panel_matches_Update T_ data P settings s :
  let panel := get_properties T_ data in
  NoDup (map prop_name panel)
  /\ (forall k, In k (map prop_name panel) <-> In k read_keys)
  /\ map (fun value =>
            align (apply_settings P (<[S_ALIGN:=OString value]> settings) s))
       (offered_values panel S_ALIGN)
     = [Align.Left; Align.Center; Align.Right]
  /\ map (fun value =>
            valign (apply_settings P (<[S_VALIGN:=OString value]> settings) s))
       (offered_values panel S_VALIGN)
     = [VAlign.Top; VAlign.Center; VAlign.Bottom].
Proof.
  cbv zeta. split; [|split; [|split]].
  - cbn [map get_properties new_property prop_name].
    apply (bool_decide_unpack _). vm_compute. exact I.
  - intros k. cbn [map get_properties new_property prop_name read_keys In]. unfold S_FONT, S_USE_FILE, S_TEXT, S_FILE, S_VERTICAL,
      S_COLOR, S_OPACITY, S_ALIGN, S_VALIGN, S_OUTLINE, S_OUTLINE_SIZE,
      S_OUTLINE_COLOR, S_OUTLINE_OPACITY. tauto.
  - cbn [offered_values get_properties find new_property prop_name prop_kind
         map snd].
    change (offered_values (get_properties T_ data) S_ALIGN)
      with [S_ALIGN_LEFT; S_ALIGN_CENTER; S_ALIGN_RIGHT].
    unfold apply_settings. cbn [map align].
    rewrite !obs_data_get_string_insert. reflexivity.
  - change (offered_values (get_properties T_ data) S_VALIGN)
      with [S_VALIGN_TOP; S_VALIGN_CENTER; S_VALIGN_BOTTOM].
    unfold apply_settings. cbn [map valign].
    rewrite !obs_data_get_string_insert. reflexivity.
Qed.

Lemma panel_matches_Update_witness :
  In S_OUTLINE_OPACITY read_keys.
Proof.
  destruct (panel_matches_Update (fun x => x) None sample_platform
              (sample_settings "Hi" 22) TextSource.init) as (_ & Hkeys & _).
  apply Hkeys. cbn. tauto.
Defined.

(* ------------------------------------------------------------------------- *)
(** ** The outline size and the font handle *)

Lemma float_same_eq x y : float_same x y = true -> x = y.
Proof.
  destruct x as [a|a| |a m e], y as [b|b| |b n f]; cbn; try discriminate.
  - intros H. apply Bool.eqb_prop in H. congruence.
  - intros H. apply Bool.eqb_prop in H. congruence.
  - reflexivity.
  - intros H. apply andb_prop in H as [H He]. apply andb_prop in H as [Hs Hm].
    apply Bool.eqb_prop in Hs. apply Pos.eqb_eq in Hm. apply Z.eqb_eq in He.
    congruence.
Qed.

(** A check that holds on every number up to a bound holds on each. *)
Lemma checked_up_to (check : Z -> bool) (bound : nat) :
  forallb check (map Z.of_nat (seq 0 (S bound))) = true ->
  forall n, 0 <= n <= Z.of_nat bound -> check n = true.
Proof.
  intros Hall n Hn.
  apply (proj1 (forallb_forall _ _) Hall).
  replace n with (Z.of_nat (Z.to_nat n)) by lia.
  apply in_map, in_seq. lia.
Qed.

(** The float of a small integer is that integer: rounding it to an integer
    changes nothing and its integer part is the integer. *)
Lemma small_integer_exact n :
  0 <= n <= 4096 ->
  F32.roundf (F32.of_Z n) = F32.of_Z n /\ F32.to_LONG (F32.of_Z n) = n.
Proof.
  intros Hn.
  assert (Hcheck :
            float_same (F32.roundf (F32.of_Z n)) (F32.of_Z n)
            && (F32.to_LONG (F32.of_Z n) =? n) = true).
  { apply (checked_up_to
             (fun k => float_same (F32.roundf (F32.of_Z k)) (F32.of_Z k)
                       && (F32.to_LONG (F32.of_Z k) =? k)) 4096).
    - vm_compute. reflexivity.
    - change (Z.of_nat 4096) with 4096. exact Hn. }
  apply andb_prop in Hcheck as [Hround Hlong].
  split; [apply float_same_eq, Hround | apply Z.eqb_eq, Hlong].
Qed.

(** X22. An outline size up to 4096 (the panel allows 1 to 20) is stored
    exactly: the update converts the setting to a float and rounds it, and
    the float it stores is the float of the setting, whose integer part is
    the setting again. *)
Theorem outline_size_stored_exactly P settings s n :
  obs_data_get_int (Some settings) S_OUTLINE_SIZE = n ->
  0 <= n <= 4096 ->
  outline_size (apply_settings P settings s) = F32.of_Z n
  /\ F32.to_LONG (outline_size (apply_settings P settings s)) = n
  /\ forall s' events,
       Update P settings s = Some (s', events) ->
       outline_size s' = F32.of_Z n.
Proof.
  intros Hget Hn.
  destruct (small_integer_exact n Hn) as [Hround Hlong].
  assert (Hstored : outline_size (apply_settings P settings s) = F32.of_Z n).
  { unfold apply_settings. cbn [outline_size].
    unfold obs_data_get_uint32. rewrite Hget.
    rewrite to_uint32_small by (unfold is_uint32; lia). exact Hround. }
  split; [exact Hstored|]. split; [rewrite Hstored; exact Hlong|].
  intros s' events Hrun.
  apply Update_frame in Hrun as (hf & f & tx & w & h & ->). exact Hstored.
Qed.

Lemma outline_size_stored_exactly_witness :
  outline_size
    (apply_settings sample_platform
       (<[S_OUTLINE_SIZE:=OInt 20]> (sample_settings "Hi" 22))
       TextSource.init)
  = F32.of_Z 20.
Proof.
  destruct (outline_size_stored_exactly sample_platform
              (<[S_OUTLINE_SIZE:=OInt 20]> (sample_settings "Hi" 22))
              TextSource.init 20) as (H & _);
    [vm_compute; reflexivity | lia | exact H].
Defined.

(** X23. The font handle through its wrapper. [UpdateFont] ends holding
    the handle the state records. On the way it calls the deleter once, on
    the handle held before, when there was one, and not at all otherwise:
    it never deletes a handle it has just created and never deletes null.
    The destructor of the wrapper then deletes what is held, and calls the
    deleter on null when nothing is. *)
Theorem UpdateFont_deletes_old_handle P s :
  fst (UpdateFont_hfont P s) = hfont (UpdateFont P s)
  /\ snd (UpdateFont_hfont P s)
     = match hfont s with
       | Some old => [GDIObj.deleter (Some old)]
       | None => []
       end
  /\ GDIObj.destructor (fst (UpdateFont_hfont P s))
     = [GDIObj.deleter (hfont (UpdateFont P s))].
Proof.
  assert (Hfst : fst (UpdateFont_hfont P s) = hfont (UpdateFont P s)).
  { unfold UpdateFont_hfont, UpdateFont, GDIObj.assign, GDIObj.Replace.
    destruct (wstring_empty (face s)); cbn [negb].
    - destruct (CreateFontIndirect P _); reflexivity.
    - destruct (CreateFontIndirect P _) as [h|]; [reflexivity|].
      destruct (CreateFontIndirect P _); reflexivity. }
  split; [exact Hfst|]. split.
  - unfold UpdateFont_hfont, GDIObj.assign, GDIObj.Replace.
    destruct (wstring_empty (face s)); cbn [negb].
    + destruct (hfont s); reflexivity.
    + destruct (CreateFontIndirect P _) as [h|];
        destruct (hfont s); reflexivity.
  - unfold GDIObj.destructor. rewrite Hfst. reflexivity.
Qed.

(* ------------------------------------------------------------------------- *)
(** ** Sizes *)

(** X24. The size the host is told. In every state reached by construction
    and updates, either no update has run yet, and the width and height
    reported are 0 and there is no texture, or both are even and within
    [32, 8192]. A texture is only ever held with a size in that range. *)
Theorem reported_size_invariant s :
  reachable s ->
  (get_width s = 0 /\ get_height s = 0 /\ tex s = None)
  \/ ((Z.even (get_width s) = true /\ 32 <= get_width s <= 8192)
      /\ (Z.even (get_height s) = true /\ 32 <= get_height s <= 8192)).
Proof.
  intros Hreach. destruct Hreach as [|P settings s s' events Hprev Hrun].
  - left. repeat split; reflexivity.
  - right.
    destruct (Update_size P settings s s' events
                (reachable_well_typed s Hprev) Hrun) as [Hx Hy].
    unfold get_width, get_height. rewrite Hx, Hy.
    unfold Update_canvas, RenderText_canvas.
    rewrite CalculateTextSizes_size. apply quantize_bounds.
Qed.

Lemma reported_size_invariant_witness :
  exists s events,
    Update sample_platform (sample_settings "Hello, world" 41) TextSource.init
    = Some (s, events)
    /\ ((get_width s = 0 /\ get_height s = 0 /\ tex s = None)
        \/ ((Z.even (get_width s) = true /\ 32 <= get_width s <= 8192)
            /\ (Z.even (get_height s) = true /\ 32 <= get_height s <= 8192))).
Proof.
  eexists _, _. split; [vm_compute; reflexivity|].
  apply reported_size_invariant.
  eapply (reach_update sample_platform (sample_settings "Hello, world" 41)
            TextSource.init); [apply reach_init | vm_compute; reflexivity].
Defined.

(** X25. The canvas against the size before it. For a size that is not
    negative, the even-rounded and clamped dimension covers it up to 8192,
    exceeds it by one pixel at most from 32 on, and is the size itself when
    that is even and within [32, 8192]; and a larger size never gives a
    smaller dimension. *)
Theorem quantized_dimension_covers v w :
  0 <= v -> v <= w -> w < 2 ^ 31 - 1 ->
  let q := clamp (round_even v) 32 8192 in
  (v <= 8192 -> v <= q)
  /\ (32 <= v -> q <= v + 1)
  /\ (32 <= v <= 8192 -> Z.even v = true -> q = v)
  /\ q <= clamp (round_even w) 32 8192.
Proof.
  intros Hv Hvw Hw q. subst q.
  assert (Hround : forall x, 0 <= x < 2 ^ 31 - 1 ->
                     x <= round_even x <= x + 1
                     /\ (Z.even x = true -> round_even x = x)
                     /\ Z.even (round_even x) = true).
  { intros x Hx. destruct (Z.odd x) eqn:Hodd.
    - rewrite round_even_of_odd by assumption.
      split; [lia|]. split.
      + rewrite <- Z.negb_odd, Hodd. discriminate.
      + rewrite Z.even_add, <- Z.negb_odd, Hodd. reflexivity.
    - assert (Heven : Z.even x = true)
        by (rewrite <- Z.negb_odd, Hodd; reflexivity).
      rewrite round_even_of_even by (unfold is_LONG; lia || assumption).
      split; [lia|]. split; [reflexivity | exact Heven]. }
  destruct (Hround v ltac:(lia)) as (Hv1 & Hv2 & Hv3).
  destruct (Hround w ltac:(lia)) as (Hw1 & Hw2 & Hw3).
  assert (Hmono : round_even v <= round_even w).
  { destruct (Z.eq_dec v w) as [->|Hne]; [lia|].
    destruct (Z.eq_dec (round_even v) (v + 1)) as [Hup|Hsame]; [|lia].
    destruct (Z.eq_dec (round_even w) w) as [Hkeep|Hmove]; [|lia].
    lia. }
  unfold clamp.
  repeat match goal with
         | |- context [?a <? ?b] => destruct (Z.ltb_spec a b)
         | |- context [?a >? ?b] => destruct (Z.gtb_spec a b)
         end; repeat split; intros; try lia.
  all: try (rewrite Hv2 by assumption); try lia.
  all: try (assert (Z.even 8193 = true)
              by (replace 8193 with (round_even v) by lia; exact Hv3);
            discriminate).
Qed.

Lemma quantized_dimension_covers_witness :
  clamp (round_even 95) 32 8192 = 96
  /\ clamp (round_even 95) 32 8192 <= clamp (round_even 9000) 32 8192.
Proof.
  destruct (quantized_dimension_covers 95 9000) as (Hlow & Hhigh & _ & Hmono);
    [lia | lia | lia |].
  split; [|exact Hmono].
  assert (Heven : Z.even (clamp (round_even 95) 32 8192) = true)
    by reflexivity.
  specialize (Hlow ltac:(lia)). specialize (Hhigh ltac:(lia)).
  assert (Hcases : clamp (round_even 95) 32 8192 = 95
                   \/ clamp (round_even 95) 32 8192 = 96) by lia.
  destruct Hcases as [Hbad|Hgood]; [|exact Hgood].
  rewrite Hbad in Heven. discriminate Heven.
Defined.

(** X26. Without wrap the extents never shrink a size and never change
    both axes: each dimension after the extents step is at least the one
    before, and the width or the height is the one before. *)
Theorem extents_nowrap_never_shrink s size :
  wrap s = false ->
  SIZE.cx size <= SIZE.cx (apply_extents s size)
  /\ SIZE.cy size <= SIZE.cy (apply_extents s size)
  /\ (SIZE.cx (apply_extents s size) = SIZE.cx size
      \/ SIZE.cy (apply_extents s size) = SIZE.cy size).
Proof.
  intros Hwrap. unfold apply_extents. rewrite Hwrap.
  destruct (use_extents s); [|lia].
  destruct (Z.gtb_spec (to_LONG (extents_cx s)) (SIZE.cx size));
    [cbn; lia|].
  destruct (Z.gtb_spec (to_LONG (extents_cy s)) (SIZE.cy size)); cbn; lia.
Qed.

Lemma extents_nowrap_never_shrink_witness :
  SIZE.cx (apply_extents (with_extents (sample_state "Hi" 40) false 100 50)
             (SIZE.mk 16 40)) = 100
  /\ 40 <= SIZE.cy (apply_extents
                      (with_extents (sample_state "Hi" 40) false 100 50)
                      (SIZE.mk 16 40)).
Proof.
  destruct (extents_nowrap_never_shrink
              (with_extents (sample_state "Hi" 40) false 100 50)
              (SIZE.mk 16 40)) as (_ & Hy & _); [reflexivity|].
  split; [vm_compute; reflexivity | exact Hy].
Defined.

(** X27. Nothing clamps the opacity. An opacity from 101 to 200 gives the
    alpha byte of its quotient less 256, so 101 is nearly transparent: the
    alpha byte is [opacity * 255 / 100 - 256], between 1 and 254. *)
Theorem alpha_wraps_above_100 opacity :
  101 <= opacity <= 200 ->
  get_alpha_val opacity = (opacity * 255 / 100 - 256) * 2 ^ 24
  /\ 1 <= opacity * 255 / 100 - 256 <= 254.
Proof.
  intros Hop.
  assert (Hq : 257 <= opacity * 255 / 100 <= 510).
  { split; [apply Z.div_le_lower_bound; lia
           | apply Z.div_le_upper_bound; lia]. }
  rewrite get_alpha_val_byte.
  rewrite (to_uint32_small (opacity * 255)) by (unfold is_uint32; lia).
  split; [|lia]. f_equal.
  symmetry. apply (Z.mod_unique _ _ 1); lia.
Qed.

Lemma alpha_wraps_above_100_witness :
  get_alpha_val 101 = 1 * 2 ^ 24.
Proof.
  destruct (alpha_wraps_above_100 101) as [H _]; [lia|].
  rewrite H. reflexivity.
Defined.
